(** * SageAttention build script (setup.py): a shallow embedding

    The only source of the repository is [setup.py], the script that decides
    which CUDA kernel extensions are built, for which GPU architectures and
    with which [nvcc] flags.  The script is a straight-line Python module:
    it reads its environment (environment variables, the GPUs torch reports,
    the output of [nvcc -V]), fills two module-level variables
    ([compute_capabilities], a set of strings, and [ext_modules], a list of
    extensions), may raise, and finally calls [setup(...)].

    The embedding keeps that shape: the environment is a record [World], the
    module-level variables live in a [State], and the script is a program in
    a small state-and-exception monad whose state survives a raise, so that
    what had been registered when an exception left the script can be
    observed. *)

From Stdlib Require Import NArith String Ascii List Bool Lia DecimalString DecimalN.
From stdpp Require Import base gmap sets list strings.
Import ListNotations.

Local Open Scope string_scope.
Local Open Scope list_scope.

(** ** Python built-ins used by the script *)

Module Py.

(** [s.startswith(prefix)] *)
Definition startswith (s pre : string) : bool := String.prefix pre s.

(** [s.endswith(suffix)]: [s] is the suffix, or its tail ends with it. *)
Fixpoint endswith (s suf : string) : bool :=
  String.eqb s suf ||
  match s with
  | EmptyString => false
  | String _ s' => endswith s' suf
  end.

(** A Python [str] is modelled by its UTF-8 bytes, the encoding in which
    the interpreter reads the environment and the output of a subprocess.
    The tests and edits the script makes with ASCII patterns ([startswith],
    [endswith], [split("+")], [replace(".", "")], equality) are the same on
    the bytes as on the characters; [str.split()] is not, since it also
    separates at the white space outside ASCII. *)

(** The white space of [str.split()] that is one byte long:
    TAB, LF, VT, FF, CR, FS, GS, RS, US and the space. *)
Definition isspace (c : ascii) : bool :=
  let n := N_of_ascii c in
  ((9 <=? n) && (n <=? 13) || (28 <=? n) && (n <=? 32))%N.

(** Two bytes long: U+0085 (C2 85) and U+00A0 (C2 A0). *)
Definition isspace2 (c d : ascii) : bool :=
  let c := N_of_ascii c in
  let d := N_of_ascii d in
  ((c =? 194) && ((d =? 133) || (d =? 160)))%N.

(** Three bytes long: U+1680 (E1 9A 80), U+2000 to U+200A (E2 80 80 to
    E2 80 8A), U+2028 and U+2029 (E2 80 A8, E2 80 A9), U+202F (E2 80 AF),
    U+205F (E2 81 9F) and U+3000 (E3 80 80). *)
Definition isspace3 (c d e : ascii) : bool :=
  let c := N_of_ascii c in
  let d := N_of_ascii d in
  let e := N_of_ascii e in
  ((c =? 225) && (d =? 154) && (e =? 128)
   || (c =? 226) && (d =? 128)
      && ((128 <=? e) && (e <=? 138) || (e =? 168) || (e =? 169) || (e =? 175))
   || (c =? 226) && (d =? 129) && (e =? 159)
   || (c =? 227) && (d =? 128) && (e =? 128))%N.

(** The number of bytes of the white-space character the string starts
    with; 0 when it starts with none. *)
Definition space_width (s : string) : nat :=
  match s with
  | String c (String d (String e _)) =>
      if isspace c then 1
      else if isspace2 c d then 2
      else if isspace3 c d e then 3
      else 0
  | String c (String d EmptyString) =>
      if isspace c then 1 else if isspace2 c d then 2 else 0
  | String c EmptyString => if isspace c then 1 else 0
  | EmptyString => 0
  end.

Definition cons_token (t : string) (ts : list string) : list string :=
  match t with
  | EmptyString => ts
  | _ => t :: ts
  end.

(** One right-to-left pass: the (possibly empty) token that starts at the
    head of the string, and the tokens after it.  [skip] is the number of
    leading bytes that still belong to a white-space character. *)
Fixpoint split_scan (skip : nat) (s : string) : string * list string :=
  match s with
  | EmptyString => (EmptyString, [])
  | String c s' =>
      match skip with
      | S k =>
          let (t, ts) := split_scan k s' in (EmptyString, cons_token t ts)
      | O =>
          match space_width (String c s') with
          | S k =>
              let (t, ts) := split_scan k s' in (EmptyString, cons_token t ts)
          | O =>
              let (t, ts) := split_scan 0 s' in (String c t, ts)
          end
      end
  end.

(** [s.split()]: the maximal runs of characters that are no white space, in
    order. *)
Definition split (s : string) : list string :=
  let (t, ts) := split_scan 0 s in cons_token t ts.

(** Does the string hold a white-space character? *)
Fixpoint has_space (s : string) : bool :=
  match s with
  | EmptyString => false
  | String c s' =>
      match space_width (String c s') with
      | S _ => true
      | O => has_space s'
      end
  end.

(** The no-break space and the em space, as bytes. *)
Definition NBSP : string :=
  String (ascii_of_N 194) (String (ascii_of_N 160) EmptyString).

Definition EM_SPACE : string :=
  String (ascii_of_N 226) (String (ascii_of_N 128) (String (ascii_of_N 131) EmptyString)).

(** The first field and the other fields of [s.split(sep)] for a
    one-character separator. *)
Fixpoint split_fields (sep : ascii) (s : string) : string * list string :=
  match s with
  | EmptyString => (EmptyString, [])
  | String c s' =>
      let (t, ts) := split_fields sep s' in
      if Ascii.eqb c sep then (EmptyString, t :: ts) else (String c t, ts)
  end.

(** [s.split(sep)]: never empty. *)
Definition split_on (sep : ascii) (s : string) : list string :=
  let (t, ts) := split_fields sep s in t :: ts.

(** [s.replace(c, "")] for a one-character [c]. *)
Fixpoint remove_char (c : ascii) (s : string) : string :=
  match s with
  | EmptyString => EmptyString
  | String d s' =>
      if Ascii.eqb d c then remove_char c s' else String d (remove_char c s')
  end.

(** [l.index(x)]: position of the first occurrence, [None] for ValueError. *)
Fixpoint index (x : string) (l : list string) : option nat :=
  match l with
  | [] => None
  | y :: l' => if String.eqb y x then Some 0 else S <$> index x l'
  end.

(** [str(n)] and [f"{n}"] for a non-negative integer. *)
Definition str_of_N (n : N) : string := NilZero.string_of_uint (N.to_uint n).

(** Truthiness of [os.getenv(...)]: set, and not the empty string. *)
Definition truthy (v : option string) : bool :=
  match v with
  | Some (String _ _) => true
  | _ => false
  end.

(** The argument of [str.startswith]: one prefix, or a tuple of them. *)
Inductive prefixes : Type :=
| Str (p : string)
| Tuple (ps : list string).

(** The prefixes such an argument stands for. *)
Definition alternatives (t : prefixes) : list string :=
  match t with
  | Str p => [p]
  | Tuple ps => ps
  end.

Definition startswith_any (s : string) (t : prefixes) : bool :=
  match t with
  | Str p => startswith s p
  | Tuple ps => existsb (startswith s) ps
  end.

End Py.

(** ** packaging.version, restricted to release segments

    [nvcc -V] prints [release X.Y,]; the versions the script compares have a
    release segment only (no epoch, pre, post, dev or local part), and
    packaging compares those by their release tuples with trailing zeros
    dropped. *)

Module Packaging.

Definition Version : Type := list N.

Fixpoint drop_zeros (l : list N) : list N :=
  match l with
  | 0%N :: l' => drop_zeros l'
  | _ => l
  end.

(** The comparison key of a release: trailing zeros do not count. *)
Definition cmpkey (v : Version) : list N := rev (drop_zeros (rev v)).

(** Python's [<] on tuples of integers. *)
Fixpoint tuple_lt (a b : list N) : bool :=
  match a, b with
  | _, [] => false
  | [], _ :: _ => true
  | x :: a', y :: b' =>
      if (x <? y)%N then true
      else if (y <? x)%N then false
      else tuple_lt a' b'
  end.

(** [a < b] on versions. *)
Definition lt (a b : Version) : bool := tuple_lt (cmpkey a) (cmpkey b).

(** A decimal number: [None] when the string is empty or has a character
    that is no digit. *)
Definition number (s : string) : option N :=
  match s with
  | EmptyString => None
  | _ => N.of_uint <$> NilEmpty.uint_of_string s
  end.

(** [parse] on the strings [N(.N)*]; the full PEP 440 grammar is the
    library's business, the script is verified for every parser. *)
Definition parse_release (s : string) : option Version :=
  mapM number (Py.split_on "." s).

End Packaging.

(** ** The script *)

Module SetupPy.
Import Py Packaging.

(** *** Data *)

(** [CUDAExtension(name=..., sources=..., libraries=...,
    extra_compile_args={"cxx": ..., "nvcc": ...})] *)
Record CUDAExtension : Type := {
  name : string;
  sources : list string;
  libraries : list string;
  cxx : list string;
  nvcc : list string
}.

(** The keyword arguments of [setup(...)] that the script computes; the
    others are literals. *)
Record SetupArgs : Type := {
  setup_name : string;
  setup_version : string;
  setup_long_description : string;
  setup_ext_modules : list CUDAExtension
}.

Inductive Exn : Type :=
| RuntimeError (msg : string)
| ValueError          (* [output.index("release")]: no such token *)
| IndexError          (* [output[release_idx]]: nothing after it *)
| InvalidVersion      (* [parse] rejects the token *)
| SubprocessError     (* [check_output] could not run nvcc, or it failed *)
| AssertionError      (* torch: invalid device ordinal *)
| FileNotFoundError.  (* [open('README.md')] *)

(** What the script does to the outside while it runs. *)
Inductive Event : Type :=
| Warn (msg : string)
| PrintDetected (ccs : list string)  (* line 83; see [require_capabilities] *)
| DeviceCount
| DeviceCapability (i : nat)
| CheckOutput (argv : list string).

(** Everything the script reads from outside itself. *)
Record World : Type := {
  os_name : string;
  os_cpu_count : option N;
  GLIBCXX_USE_CXX11_ABI : bool;
  CUDA_HOME : option string;
  getenv : string -> option string;
  (** [torch.cuda.get_device_capability(i)] for [i < device_count()] *)
  device_capability : list (N * N);
  (** [subprocess.check_output(argv)]: the standard output, or a failure *)
  check_output : list string -> option string;
  (** [packaging.version.parse] *)
  parse : string -> option Version;
  (** [open(path).read()] *)
  read_file : string -> option string;
  (** The order in which this process iterates over a set of strings: it
      depends on the hash seed, and is some listing of the elements. *)
  set_iter : gset string -> list string;
  set_iter_perm : forall S : gset string, set_iter S ≡ₚ elements S
}.

(** The module-level variables that change, and the trace of events. *)
Record State : Type := {
  compute_capabilities : gset string;
  ext_modules : list CUDAExtension;
  trace : list Event
}.

(** Line 65, [compute_capabilities = set()]; nothing registered yet. *)
Definition initial : State :=
  {| compute_capabilities := ∅; ext_modules := []; trace := [] |}.

(** *** A state and exception monad; the state survives a raise *)

Definition Script (A : Type) : Type := State -> State * (Exn + A).

Definition ret {A} (a : A) : Script A := fun s => (s, inr a).

Definition bind {A B} (m : Script A) (k : A -> Script B) : Script B :=
  fun s =>
    match m s with
    | (s', inl e) => (s', inl e)
    | (s', inr a) => k a s'
    end.

Definition raise {A} (e : Exn) : Script A := fun s => (s, inl e).

Definition gets {A} (f : State -> A) : Script A := fun s => (s, inr (f s)).

Definition modify (f : State -> State) : Script unit := fun s => (f s, inr tt).

Declare Scope script_scope.
Delimit Scope script_scope with script.
Bind Scope script_scope with Script.

Notation "x <- c1 ;; c2" := (bind c1 (fun x => c2))
  (at level 100, c1 at next level, right associativity) : script_scope.
Notation "c1 ;; c2" := (bind c1 (fun _ => c2))
  (at level 100, c2 at level 200, right associativity) : script_scope.

Local Open Scope script_scope.

(** [for x in l: body(x)] *)
Fixpoint for_each {A} (l : list A) (body : A -> Script unit) : Script unit :=
  match l with
  | [] => ret tt
  | x :: l' => body x ;; for_each l' body
  end.

Definition emit (e : Event) : Script unit :=
  modify (fun s => {| compute_capabilities := compute_capabilities s;
                      ext_modules := ext_modules s;
                      trace := trace s ++ [e] |}).

(** [compute_capabilities.add(x)] *)
Definition add_capability (x : string) : Script unit :=
  modify (fun s => {| compute_capabilities := {[x]} ∪ compute_capabilities s;
                      ext_modules := ext_modules s;
                      trace := trace s |}).

(** [ext_modules = []] *)
Definition reset_ext_modules : Script unit :=
  modify (fun s => {| compute_capabilities := compute_capabilities s;
                      ext_modules := [];
                      trace := trace s |}).

(** [ext_modules.append(e)] *)
Definition append_ext_module (e : CUDAExtension) : Script unit :=
  modify (fun s => {| compute_capabilities := compute_capabilities s;
                      ext_modules := ext_modules s ++ [e];
                      trace := trace s |}).

Definition lift_option {A} (e : Exn) (o : option A) : Script A :=
  match o with
  | Some a => ret a
  | None => raise e
  end.

(** *** Lines 26-47: compiler flags *)

Definition ABI (w : World) : N := if GLIBCXX_USE_CXX11_ABI w then 1%N else 0%N.

Definition CXX_FLAGS (w : World) : list string :=
  (if String.eqb (os_name w) "nt"
   then ["/O2"; "/openmp"; "/std:c++17"; "-DENABLE_BF16"]
   else ["-g"; "-O3"; "-fopenmp"; "-lgomp"; "-std=c++17"; "-DENABLE_BF16"])
  ++ ["-D_GLIBCXX_USE_CXX11_ABI=" +:+ str_of_N (ABI w)].

Definition NVCC_FLAGS_COMMON (w : World) : list string :=
  [ "-O3";
    "-std=c++17";
    "-U__CUDA_NO_HALF_OPERATORS__";
    "-U__CUDA_NO_HALF_CONVERSIONS__";
    "--use_fast_math";
    "--threads=" +:+ match os_cpu_count w with
                    | Some n => str_of_N n
                    | None => "None"
                    end;
    "-diag-suppress=174";
    "-diag-suppress=177";
    "-diag-suppress=221" ]
  ++ ["-D_GLIBCXX_USE_CXX11_ABI=" +:+ str_of_N (ABI w)].

(** *** Lines 49-51 *)

Definition require_cuda_home (w : World) : Script string :=
  lift_option
    (RuntimeError "Cannot find CUDA_HOME. CUDA must be available to build the package.")
    (CUDA_HOME w).

(** *** Lines 53-63 *)

Definition get_nvcc_cuda_version (w : World) (cuda_dir : string) : Script Version :=
  let argv := [cuda_dir +:+ "/bin/nvcc"; "-V"] in
  emit (CheckOutput argv) ;;
  nvcc_output <- lift_option SubprocessError (check_output w argv) ;;
  let output := split nvcc_output in
  i <- lift_option ValueError (index "release" output) ;;
  let release_idx := i + 1 in
  token <- lift_option IndexError (output !! release_idx) ;;
  lift_option InvalidVersion (parse w (hd "" (split_on "," token))).

(** *** Lines 65-77 *)

Definition torch_cuda_device_count (w : World) : Script nat :=
  emit DeviceCount ;; ret (length (device_capability w)).

Definition torch_cuda_get_device_capability (w : World) (i : nat) : Script (N * N) :=
  emit (DeviceCapability i) ;;
  lift_option AssertionError (device_capability w !! i).

Definition capability_name (major minor : N) : string :=
  str_of_N major +:+ "." +:+ str_of_N minor.

Definition skip_warning (i : nat) (major minor : N) : string :=
  "skipping GPU " +:+ str_of_N (N.of_nat i) +:+ " with compute capability "
  +:+ str_of_N major +:+ "." +:+ str_of_N minor.

Definition detect_device (w : World) (i : nat) : Script unit :=
  cap <- torch_cuda_get_device_capability w i ;;
  let (major, minor) := cap in
  if (major <? 8)%N
  then emit (Warn (skip_warning i major minor))
  else add_capability (capability_name major minor).

Definition ARCH_LIST : string := "SAGEATTENTION_CUDA_ARCH_LIST".

Definition detect_compute_capabilities (w : World) : Script unit :=
  if truthy (getenv w ARCH_LIST)
  then for_each (split (default "" (getenv w ARCH_LIST))) add_capability
  else
    device_count <- torch_cuda_device_count w ;;
    for_each (seq 0 device_count) (detect_device w).

(** *** Lines 80-83 *)

(** The line printed on line 83 is the [repr] of the set, which lists the
    elements in the order of iteration: the event records that listing, so
    that two processes with different orders log different events. *)
Definition require_capabilities (w : World) : Script unit :=
  caps <- gets compute_capabilities ;;
  if bool_decide (caps = ∅)
  then raise (RuntimeError
    "No GPUs found. Please specify SAGEATTENTION_CUDA_ARCH_LIST or build on a machine with GPUs.")
  else emit (PrintDetected (set_iter w caps)).

(** *** Lines 85-86 *)

(** [any(cc.startswith(target) for cc in ccs)] *)
Definition any_startswith (target : prefixes) (ccs : list string) : bool :=
  existsb (fun cc => startswith_any cc target) ccs.

Definition has_capability (w : World) (target : prefixes) : Script bool :=
  caps <- gets compute_capabilities ;;
  ret (any_startswith target (set_iter w caps)).

(** *** Lines 88-99 *)

Definition require_cuda_for (w : World) (nvcc_cuda_version required : Version)
    (capability : string) (msg : string) : Script unit :=
  if lt nvcc_cuda_version required
  then
    targeted <- has_capability w (Str capability) ;;
    if targeted then raise (RuntimeError msg) else ret tt
  else ret tt.

Definition validate_nvcc_cuda_version (w : World) (nvcc_cuda_version : Version)
    : Script unit :=
  (if lt nvcc_cuda_version [12; 0]%N
   then raise (RuntimeError "CUDA 12.0 or higher is required to build the package.")
   else ret tt) ;;
  require_cuda_for w nvcc_cuda_version [12; 4]%N "8.9"
    "CUDA 12.4 or higher is required for compute capability 8.9." ;;
  require_cuda_for w nvcc_cuda_version [12; 3]%N "9.0"
    "CUDA 12.3 or higher is required for compute capability 9.0." ;;
  require_cuda_for w nvcc_cuda_version [12; 8]%N "12.0"
    "CUDA 12.8 or higher is required for compute capability 12.0.".

(** *** Lines 102-120 *)

(** [capability.split("+")[0].replace(".", "")], then the [a] suffix. *)
Definition arch_num (capability : string) : string :=
  let num := remove_char "." (hd "" (split_on "+" capability)) in
  if bool_decide (num ∈ ["90"; "120"]) then num +:+ "a" else num.

(** One turn of the loop body on the flags collected so far. *)
Definition nvcc_flags_step (allowed_capabilities : list string)
    (NVCC_FLAGS : list string) (capability : string) : list string :=
  if negb (bool_decide (capability ∈ allowed_capabilities)) then NVCC_FLAGS
  else
    let num := arch_num capability in
    let NVCC_FLAGS :=
      NVCC_FLAGS ++ ["-gencode"; "arch=compute_" +:+ num +:+ ",code=sm_" +:+ num] in
    if endswith capability "+PTX"
    then NVCC_FLAGS ++ ["-gencode"; "arch=compute_" +:+ num +:+ ",code=compute_" +:+ num]
    else NVCC_FLAGS.

(** The loop over the capabilities [ccs], then [+= NVCC_FLAGS_COMMON]. *)
Definition nvcc_flags_over (w : World) (allowed_capabilities : list string)
    (ccs : list string) : list string :=
  let NVCC_FLAGS := fold_left (nvcc_flags_step allowed_capabilities) ccs [] in
  NVCC_FLAGS ++ NVCC_FLAGS_COMMON w.

Definition get_nvcc_flags (w : World) (allowed_capabilities : list string)
    : Script (list string) :=
  caps <- gets compute_capabilities ;;
  ret (nvcc_flags_over w allowed_capabilities (set_iter w caps)).

(** *** Lines 122-182

    Every extension gets a fresh list of nvcc flags; the one object the
    extensions share, the list [CXX_FLAGS], is not written to after
    line 46, so extensions are modelled as values. *)

Definition qattn_sm80 (w : World) (flags : list string) : CUDAExtension :=
  {| name := "sageattention._qattn_sm80";
     sources := [ "csrc/qattn/pybind_sm80.cpp";
                  "csrc/qattn/qk_int_sv_f16_cuda_sm80.cu" ];
     libraries := [];
     cxx := CXX_FLAGS w;
     nvcc := flags |}.

Definition qattn_sm89 (w : World) (flags : list string) : CUDAExtension :=
  {| name := "sageattention._qattn_sm89";
     sources := [ "csrc/qattn/pybind_sm89.cpp";
                  "csrc/qattn/sm89_qk_int8_sv_f8_accum_f32_attn_inst_buf.cu";
                  "csrc/qattn/sm89_qk_int8_sv_f8_accum_f16_attn_inst_buf.cu";
                  "csrc/qattn/sm89_qk_int8_sv_f8_accum_f32_attn.cu";
                  "csrc/qattn/sm89_qk_int8_sv_f8_accum_f32_fuse_v_scale_fuse_v_mean_attn.cu";
                  "csrc/qattn/sm89_qk_int8_sv_f8_accum_f32_fuse_v_scale_attn.cu";
                  "csrc/qattn/sm89_qk_int8_sv_f8_accum_f32_fuse_v_scale_attn_inst_buf.cu";
                  "csrc/qattn/sm89_qk_int8_sv_f8_accum_f16_fuse_v_scale_attn_inst_buf.cu" ];
     libraries := [];
     cxx := CXX_FLAGS w;
     nvcc := flags |}.

Definition qattn_sm90 (w : World) (flags : list string) : CUDAExtension :=
  {| name := "sageattention._qattn_sm90";
     sources := [ "csrc/qattn/pybind_sm90.cpp";
                  "csrc/qattn/qk_int_sv_f8_cuda_sm90.cu" ];
     libraries := ["cuda"];
     cxx := CXX_FLAGS w;
     nvcc := flags |}.

Definition fused_extension (w : World) (flags : list string) : CUDAExtension :=
  {| name := "sageattention._fused";
     sources := ["csrc/fused/pybind.cpp"; "csrc/fused/fused.cu"];
     libraries := [];
     cxx := CXX_FLAGS w;
     nvcc := flags |}.

(** [if has_capability(targets): ext_modules.append(make(get_nvcc_flags(allowed)))] *)
Definition register_if (w : World) (targets : list string)
    (make : list string -> CUDAExtension) (allowed : list string) : Script unit :=
  selected <- has_capability w (Tuple targets) ;;
  if selected
  then flags <- get_nvcc_flags w allowed ;; append_ext_module (make flags)
  else ret tt.

Definition register_sm80 (w : World) : Script unit :=
  register_if w ["8.0"] (qattn_sm80 w) ["8.0"].

Definition register_sm89 (w : World) : Script unit :=
  register_if w ["8.9"; "12.0"] (qattn_sm89 w) ["8.9"; "12.0"].

Definition register_sm90 (w : World) : Script unit :=
  register_if w ["9.0"] (qattn_sm90 w) ["9.0"].

Definition register_fused (w : World) : Script unit :=
  flags <- get_nvcc_flags w ["8.0"; "8.9"; "9.0"; "12.0"] ;;
  append_ext_module (fused_extension w flags).

Definition register_extensions (w : World) : Script unit :=
  reset_ext_modules ;;
  register_sm80 w ;;
  register_sm89 w ;;
  register_sm90 w ;;
  register_fused w.

(** *** Lines 184-197 *)

Definition call_setup (w : World) : Script SetupArgs :=
  let suffix := default "" (getenv w "SAGEATTENTION_WHEEL_VERSION_SUFFIX") in
  readme <- lift_option FileNotFoundError (read_file w "README.md") ;;
  exts <- gets ext_modules ;;
  ret {| setup_name := "sageattention";
         setup_version := "2.2.0" +:+ suffix;
         setup_long_description := readme;
         setup_ext_modules := exts |}.

(** *** The module, top to bottom *)

(** Everything up to and including the nvcc version checks (lines 49-99). *)
Definition configure (w : World) : Script unit :=
  cuda_home <- require_cuda_home w ;;
  detect_compute_capabilities w ;;
  nvcc_cuda_version <- get_nvcc_cuda_version w cuda_home ;;
  require_capabilities w ;;
  validate_nvcc_cuda_version w nvcc_cuda_version.

Definition setup_py (w : World) : Script SetupArgs :=
  configure w ;;
  register_extensions w ;;
  call_setup w.

(** Running the script from a fresh interpreter. *)
Definition run (w : World) : State * (Exn + SetupArgs) := setup_py w initial.

(** *** Concrete worlds, to run the script on *)

Definition nvcc_banner (release : string) : string :=
  "nvcc: NVIDIA (R) Cuda compiler driver Cuda compilation tools, release "
  +:+ release +:+ ", V" +:+ release +:+ ".0".

(** A Linux machine with 8 cores, a CUDA toolkit under /usr/local/cuda that
    reports [release], the GPUs [gpus] and, when [arch_list] is given, the
    environment variable SAGEATTENTION_CUDA_ARCH_LIST. *)
Definition machine (arch_list : option string) (gpus : list (N * N))
    (release : option string) : World :=
  {| os_name := "posix";
     os_cpu_count := Some 8%N;
     GLIBCXX_USE_CXX11_ABI := true;
     CUDA_HOME := Some "/usr/local/cuda";
     getenv := fun k => if String.eqb k ARCH_LIST then arch_list else None;
     device_capability := gpus;
     check_output := fun argv =>
       if bool_decide (argv = ["/usr/local/cuda/bin/nvcc"; "-V"])
       then nvcc_banner <$> release else None;
     parse := parse_release;
     read_file := fun _ => Some "SageAttention";
     set_iter := elements;
     set_iter_perm := fun S => reflexivity (elements S) |}.

End SetupPy.

(** ** Vocabulary of the statements

    Names for what the properties below talk about: intermediate states of
    a run, closed forms of what the loops compute, and the readings that the
    statements are compared with. *)

Module Spec.
Import Py Packaging SetupPy.

(** The state in which capability detection (lines 65-77) leaves a fresh
    interpreter. *)
Definition detected (w : World) : State :=
  fst (detect_compute_capabilities w initial).

(** What the nvcc version query of line 79 yields in the run of [w]. *)
Definition nvcc_version_of (w : World) : Exn + Version :=
  match CUDA_HOME w with
  | None => inl (RuntimeError
      "Cannot find CUDA_HOME. CUDA must be available to build the package.")
  | Some cuda_home => snd (get_nvcc_cuda_version w cuda_home (detected w))
  end.

(** A capability is targeted when [has_capability] answers yes for it. *)
Definition targeted (s : State) (capability : string) : Prop :=
  exists cc, cc ∈ compute_capabilities s /\ startswith cc capability = true.

(** The flags the loop of [get_nvcc_flags] adds for one capability. *)
Definition capability_flags (allowed : list string) (c : string) : list string :=
  if bool_decide (c ∈ allowed)
  then
    ["-gencode"; "arch=compute_" +:+ arch_num c +:+ ",code=sm_" +:+ arch_num c]
    ++ (if endswith c "+PTX"
        then ["-gencode";
              "arch=compute_" +:+ arch_num c +:+ ",code=compute_" +:+ arch_num c]
        else [])
  else [].

(** The architecture number read as: the capability with a [+PTX] suffix
    dropped and the dots removed, [a] appended for 90 and 120. *)
Definition drop_ptx (c : string) : string :=
  if endswith c "+PTX"
  then substring 0 (String.length c - 4) c
  else c.

Definition suffix_arch_num (c : string) : string :=
  let num := remove_char "." (drop_ptx c) in
  if bool_decide (num ∈ ["90"; "120"]) then num +:+ "a" else num.

Definition suffix_capability_flags (allowed : list string) (c : string)
    : list string :=
  if bool_decide (c ∈ allowed)
  then
    ["-gencode";
     "arch=compute_" +:+ suffix_arch_num c +:+ ",code=sm_" +:+ suffix_arch_num c]
    ++ (if endswith c "+PTX"
        then ["-gencode";
              "arch=compute_" +:+ suffix_arch_num c
                +:+ ",code=compute_" +:+ suffix_arch_num c]
        else [])
  else [].

(** A device the detection loop keeps. *)
Definition usable (cap : N * N) : bool := negb (fst cap <? 8)%N.

(** The names the detection loop adds for the devices [devs]. *)
Definition detected_names (devs : list (N * N)) : list string :=
  (fun cap => capability_name (fst cap) (snd cap)) <$> filter (fun cap => usable cap = true) devs.

(** The events of the detection loop on the devices [devs], numbered
    from [i]. *)
Fixpoint device_trace (i : nat) (devs : list (N * N)) : list Event :=
  match devs with
  | [] => []
  | (major, minor) :: devs' =>
      DeviceCapability i
      :: (if (major <? 8)%N then [Warn (skip_warning i major minor)] else [])
      ++ device_trace (S i) devs'
  end.

(** What the detection adds to [compute_capabilities], and to the trace. *)
Definition detected_capabilities (w : World) : gset string :=
  if truthy (getenv w ARCH_LIST)
  then list_to_set (split (default "" (getenv w ARCH_LIST)))
  else list_to_set (detected_names (device_capability w)).

Definition detection_trace (w : World) : list Event :=
  if truthy (getenv w ARCH_LIST)
  then []
  else DeviceCount :: device_trace 0 (device_capability w).

(** Lines 79-99, once [CUDA_HOME] is known and the detection is done. *)
Definition checks (w : World) (cuda_home : string) : Script unit :=
  (nvcc_cuda_version <- get_nvcc_cuda_version w cuda_home ;;
   require_capabilities w ;;
   validate_nvcc_cuda_version w nvcc_cuda_version)%script.

(** What the checks of lines 88-99 answer. *)
Definition version_check (w : World) (v : Version) (s : State) : Exn + unit :=
  let targets c := any_startswith (Str c) (set_iter w (compute_capabilities s)) in
  if lt v [12; 0]%N
  then inl (RuntimeError "CUDA 12.0 or higher is required to build the package.")
  else if lt v [12; 4]%N && targets "8.9"
  then inl (RuntimeError "CUDA 12.4 or higher is required for compute capability 8.9.")
  else if lt v [12; 3]%N && targets "9.0"
  then inl (RuntimeError "CUDA 12.3 or higher is required for compute capability 9.0.")
  else if lt v [12; 8]%N && targets "12.0"
  then inl (RuntimeError "CUDA 12.8 or higher is required for compute capability 12.0.")
  else inr tt.

(** The same world with other GPUs. *)
Definition with_devices (w : World) (devs : list (N * N)) : World :=
  {| os_name := os_name w;
     os_cpu_count := os_cpu_count w;
     GLIBCXX_USE_CXX11_ABI := GLIBCXX_USE_CXX11_ABI w;
     CUDA_HOME := CUDA_HOME w;
     getenv := getenv w;
     device_capability := devs;
     check_output := check_output w;
     parse := parse w;
     read_file := read_file w;
     set_iter := set_iter w;
     set_iter_perm := set_iter_perm w |}.

(** Two states with the same module-level variables; their traces may
    differ. *)
Definition same_vars (s s' : State) : Prop :=
  compute_capabilities s = compute_capabilities s' /\
  ext_modules s = ext_modules s'.

(** A state with more extensions appended. *)
Definition appended (s : State) (added : list CUDAExtension) : State :=
  {| compute_capabilities := compute_capabilities s;
     ext_modules := ext_modules s ++ added;
     trace := trace s |}.

(** The names of the registered extensions. *)
Definition names (exts : list CUDAExtension) : list string := name <$> exts.

(** The list the registration builds for the capabilities [caps]. *)
Definition registered (w : World) (caps : gset string) : list CUDAExtension :=
  let ccs := set_iter w caps in
  (if any_startswith (Tuple ["8.0"]) ccs
   then [qattn_sm80 w (nvcc_flags_over w ["8.0"] ccs)] else [])
  ++ (if any_startswith (Tuple ["8.9"; "12.0"]) ccs
      then [qattn_sm89 w (nvcc_flags_over w ["8.9"; "12.0"] ccs)] else [])
  ++ (if any_startswith (Tuple ["9.0"]) ccs
      then [qattn_sm90 w (nvcc_flags_over w ["9.0"] ccs)] else [])
  ++ [fused_extension w (nvcc_flags_over w ["8.0"; "8.9"; "9.0"; "12.0"] ccs)].

End Spec.

(** ** Vocabulary of the further properties *)

Module Cover.
Import Py Packaging SetupPy Spec.


Definition is_device_query (e : Event) : bool :=
  match e with
  | DeviceCount | DeviceCapability _ => true
  | _ => false
  end.

Definition is_warning (e : Event) : bool :=
  match e with
  | Warn _ => true
  | _ => false
  end.

(** The same world, in a process that iterates over sets in another
    order. *)
Definition with_set_iter (w : World) (iter : gset string -> list string)
    (iter_perm : forall S : gset string, iter S ≡ₚ elements S) : World :=
  {| os_name := os_name w;
     os_cpu_count := os_cpu_count w;
     GLIBCXX_USE_CXX11_ABI := GLIBCXX_USE_CXX11_ABI w;
     CUDA_HOME := CUDA_HOME w;
     getenv := getenv w;
     device_capability := device_capability w;
     check_output := check_output w;
     parse := parse w;
     read_file := read_file w;
     set_iter := iter;
     set_iter_perm := iter_perm |}.

(** The pair of flags that asks for the machine code of one capability. *)
Definition sm_flags (c : string) : list string :=
  ["-gencode"; "arch=compute_" +:+ arch_num c +:+ ",code=sm_" +:+ arch_num c].

(** What lines 88-99 require of the nvcc version [v]. *)
Definition version_requirements (v : Version) (s : State) : Prop :=
  lt v [12; 0]%N = false
  /\ (lt v [12; 4]%N = true -> ~ targeted s "8.9")
  /\ (lt v [12; 3]%N = true -> ~ targeted s "9.0")
  /\ (lt v [12; 8]%N = true -> ~ targeted s "12.0").

(** The same world without a CUDA toolkit that torch could find. *)
Definition without_cuda_home (w : World) : World :=
  {| os_name := os_name w;
     os_cpu_count := os_cpu_count w;
     GLIBCXX_USE_CXX11_ABI := GLIBCXX_USE_CXX11_ABI w;
     CUDA_HOME := None;
     getenv := getenv w;
     device_capability := device_capability w;
     check_output := check_output w;
     parse := parse w;
     read_file := read_file w;
     set_iter := set_iter w;
     set_iter_perm := set_iter_perm w |}.

(** The state after one more event. *)
Definition logged (s : State) (e : Event) : State :=
  {| compute_capabilities := compute_capabilities s;
     ext_modules := ext_modules s;
     trace := trace s ++ [e] |}.

(** The command line of the nvcc query. *)
Definition nvcc_argv (cuda_dir : string) : list string :=
  [cuda_dir +:+ "/bin/nvcc"; "-V"].

(** The pair of flags that asks for the PTX of one capability. *)
Definition ptx_flags (c : string) : list string :=
  ["-gencode"; "arch=compute_" +:+ arch_num c +:+ ",code=compute_" +:+ arch_num c].

(** The names of the extensions, in the order of the script. *)
Definition extension_names : list string :=
  ["sageattention._qattn_sm80"; "sageattention._qattn_sm89";
   "sageattention._qattn_sm90"; "sageattention._fused"].

(** Some capability of the state starts with the prefix [p]. *)
Definition some_startswith (s : State) (p : string) : Prop :=
  exists c, c ∈ compute_capabilities s /\ startswith c p = true.

(** The messages of the RuntimeErrors the script raises. *)
Definition runtime_messages : list string :=
  ["Cannot find CUDA_HOME. CUDA must be available to build the package.";
   "No GPUs found. Please specify SAGEATTENTION_CUDA_ARCH_LIST or build on a machine with GPUs.";
   "CUDA 12.0 or higher is required to build the package.";
   "CUDA 12.4 or higher is required for compute capability 8.9.";
   "CUDA 12.3 or higher is required for compute capability 9.0.";
   "CUDA 12.8 or higher is required for compute capability 12.0."].

(** An exception the script can end with: no AssertionError, and of the
    RuntimeErrors only those with one of its messages. *)
Definition expected_exception (e : Exn) : Prop :=
  match e with
  | AssertionError => False
  | RuntimeError msg => msg ∈ runtime_messages
  | _ => True
  end.

(** Two extensions that differ at most in the order of their nvcc flags. *)
Definition same_but_flag_order (e' e : CUDAExtension) : Prop :=
  name e' = name e /\ sources e' = sources e /\ libraries e' = libraries e
  /\ cxx e' = cxx e /\ nvcc e' ≡ₚ nvcc e.

(** Two events that differ at most in the order in which the detected
    capabilities are printed. *)
Definition same_event_but_order (e' e : Event) : Prop :=
  match e', e with
  | PrintDetected ccs', PrintDetected ccs => ccs' ≡ₚ ccs
  | _, _ => e' = e
  end.

(** What the checks of lines 79-83 add to the trace. *)
Definition checks_trace (w : World) (cuda_home : string) : list Event :=
  CheckOutput (nvcc_argv cuda_home)
  :: match nvcc_version_of w with
     | inl _ => []
     | inr _ =>
         if bool_decide (compute_capabilities (detected w) = ∅) then []
         else [PrintDetected (set_iter w (compute_capabilities (detected w)))]
     end.

(** The digits of a device capability, major before minor. *)
Definition capability_digits (major minor : N) : string :=
  str_of_N major +:+ str_of_N minor.

(** The four targets the script knows. *)
Definition known_targets : list string := ["8.0"; "8.9"; "9.0"; "12.0"].

End Cover.

(** * Properties *)

(** ** The Python built-ins *)

Module PyFacts.
Import Py.

Lemma append_nil (r : string) : EmptyString +:+ r = r.
Proof. reflexivity. Qed.

Lemma append_cons (c : ascii) (p r : string) :
  String c p +:+ r = String c (p +:+ r).
Proof. reflexivity. Qed.

Lemma append_nil_r (s : string) : s +:+ EmptyString = s.
Proof. induction s as [|c s IH]; [done|]. by rewrite append_cons, IH. Qed.

Lemma startswith_spec (s p : string) :
  startswith s p = true <-> exists r, s = p +:+ r.
Proof.
  unfold startswith. revert s.
  induction p as [|c p IH]; intros s; simpl.
  - destruct s; split; eauto.
  - destruct s as [|d s]; simpl.
    + split; [discriminate | intros [r Hr]; discriminate].
    + destruct (ascii_dec c d) as [->|Hne].
      * rewrite IH. split; intros [r Hr]; exists r;
          rewrite append_cons in *; congruence.
      * split; [discriminate | intros [r Hr]; rewrite append_cons in Hr; congruence].
Qed.

Lemma startswith_refl (s : string) : startswith s s = true.
Proof. apply startswith_spec. exists EmptyString. by rewrite append_nil_r. Qed.

Lemma endswith_spec (s suf : string) :
  endswith s suf = true <-> exists p, s = p +:+ suf.
Proof.
  induction s as [|c s IH]; cbn [endswith].
  - rewrite orb_false_r, String.eqb_eq. split.
    + intros <-. by exists EmptyString.
    + intros [[|d p] Hp]; [by rewrite append_nil in Hp | discriminate].
  - rewrite orb_true_iff, String.eqb_eq, IH. split.
    + intros [<- | [p ->]]; [by exists EmptyString | by exists (String c p)].
    + intros [[|d p] Hp]; [left; by rewrite append_nil in Hp | right].
      rewrite append_cons in Hp. injection Hp as -> ->. by exists p.
Qed.

Lemma existsb_startswith (s : string) (ps : list string) :
  existsb (startswith s) ps = true <-> exists p, p ∈ ps /\ startswith s p = true.
Proof.
  rewrite existsb_exists. split; intros (p & Hin & Hp); exists p.
  - by rewrite list_elem_of_In.
  - by rewrite <- list_elem_of_In.
Qed.

(** The prefixes a [startswith] argument stands for. *)
Lemma startswith_any_spec (s : string) (t : prefixes) :
  startswith_any s t = true <->
  exists p, p ∈ alternatives t /\ exists r, s = p +:+ r.
Proof.
  destruct t as [p|ps]; simpl.
  - rewrite startswith_spec. split.
    + intros Hr. exists p. split; [apply list_elem_of_singleton; reflexivity | done].
    + intros (q & Hq & Hr). apply list_elem_of_singleton in Hq. by subst.
  - rewrite existsb_startswith.
    split; intros (p & Hin & Hp); exists p; (split; [done|]); by apply startswith_spec.
Qed.

(** *** [split]: the tokens are non-empty and free of white space *)

Lemma cons_token_elem (x t : string) (ts : list string) :
  x ∈ cons_token t ts -> (x = t /\ t <> EmptyString) \/ x ∈ ts.
Proof.
  destruct t; simpl; [by right|].
  intros [->|H]%elem_of_cons; [by left | by right].
Qed.

(** The leading token is a prefix of the string. *)
Lemma split_scan_prefix (s : string) :
  exists r, s = fst (split_scan 0 s) +:+ r.
Proof.
  induction s as [|c s [r IH]]; [by exists EmptyString|].
  cbn [split_scan].
  destruct (space_width (String c s)).
  - destruct (split_scan 0 s) as [t ts]; cbn [fst] in *.
    exists r. by rewrite append_cons, <- IH.
  - destruct (split_scan n s) as [t ts]. by exists (String c s).
Qed.

(** A white-space character at the head of a string is one at the head of
    every string that extends it. *)
Lemma space_width_append (c : ascii) (t r : string) :
  space_width (String c (t +:+ r)) = 0 -> space_width (String c t) = 0.
Proof.
  destruct t as [|d [|e t]]; rewrite ?append_nil, ?append_cons.
  - destruct r as [|d [|e r]]; cbn [space_width];
      destruct (isspace c); try done.
  - destruct r as [|e r]; cbn [space_width];
      destruct (isspace c), (isspace2 c d); try done.
  - done.
Qed.

Lemma split_scan_tokens (skip : nat) (s : string) :
  has_space (fst (split_scan skip s)) = false /\
  forall x, x ∈ snd (split_scan skip s) -> x <> EmptyString /\ has_space x = false.
Proof.
  revert skip. induction s as [|c s IH]; intros skip.
  - split; [done | intros x Hx; by apply elem_of_nil in Hx].
  - cbn [split_scan].
    assert (Hsep : forall k,
      has_space (fst (let (t, ts) := split_scan k s in (EmptyString, cons_token t ts)))
        = false /\
      forall x, x ∈ snd (let (t, ts) := split_scan k s in (EmptyString, cons_token t ts))
                -> x <> EmptyString /\ has_space x = false).
    { intros k. destruct (IH k) as [Ht Hts].
      destruct (split_scan k s) as [t ts]; cbn [fst snd] in *.
      split; [done|]. intros x [[-> Hne]|Hx]%cons_token_elem; auto. }
    destruct skip as [|k]; [|apply Hsep].
    destruct (space_width (String c s)) as [|k] eqn:Hw; [|apply Hsep].
    destruct (IH 0) as [Ht Hts]. destruct (split_scan_prefix s) as [r Hr].
    destruct (split_scan 0 s) as [t ts]; cbn [fst snd] in *.
    split; [|done]. cbn [has_space].
    rewrite Hr in Hw. by rewrite (space_width_append c t r Hw).
Qed.

Lemma split_tokens (s x : string) :
  x ∈ split s -> x <> EmptyString /\ has_space x = false.
Proof.
  unfold split. pose proof (split_scan_tokens 0 s) as [Ht Hts].
  destruct (split_scan 0 s) as [t ts]; simpl in *.
  intros [[-> Hne]|Hx]%cons_token_elem; auto.
Qed.

(** A string without white space is its own single token. *)
Lemma split_scan_word (s : string) :
  has_space s = false -> split_scan 0 s = (s, []).
Proof.
  induction s as [|c s IH]; [done|].
  cbn [has_space split_scan].
  destruct (space_width (String c s)); [|discriminate].
  intros Hs. by rewrite (IH Hs).
Qed.

Lemma split_word (s : string) :
  s <> EmptyString -> has_space s = false -> split s = [s].
Proof.
  intros Hne Hs. unfold split. rewrite (split_scan_word _ Hs).
  by destruct s.
Qed.

(** *** [split_on] *)

Lemma split_on_cons (sep : ascii) (s : string) :
  exists t ts, split_on sep s = t :: ts.
Proof. unfold split_on. destruct (split_fields sep s); eauto. Qed.

Lemma remove_char_length (c : ascii) (s : string) :
  String.length (remove_char c s) <= String.length s.
Proof.
  induction s as [|d s IH]; simpl; [lia|].
  destruct (Ascii.eqb d c); simpl; lia.
Qed.

Lemma remove_char_append (c : ascii) (a b : string) :
  remove_char c (a +:+ b) = remove_char c a +:+ remove_char c b.
Proof.
  induction a as [|d a IH]; [done|].
  rewrite append_cons. simpl. destruct (Ascii.eqb d c); [done|].
  by rewrite append_cons, IH.
Qed.

Lemma length_append (a b : string) :
  String.length (a +:+ b) = String.length a + String.length b.
Proof.
  induction a as [|d a IH]; [done|]. rewrite append_cons. simpl. by rewrite IH.
Qed.

Lemma substring_append (a b : string) :
  substring 0 (String.length a) (a +:+ b) = a.
Proof.
  induction a as [|d a IH].
  - rewrite append_nil. by destruct b.
  - rewrite append_cons. simpl. by rewrite IH.
Qed.

(** A string without [+] does not end with [+PTX]. *)
Lemma plus_free_not_ptx (b : string) :
  remove_char "+" b = b -> endswith b "+PTX" = false.
Proof.
  intros Hb. destruct (endswith b "+PTX") eqn:He; [|done].
  apply endswith_spec in He as [p ->].
  pose proof (remove_char_length "+" p) as Hp.
  apply (f_equal String.length) in Hb.
  rewrite remove_char_append, !length_append in Hb. simpl in Hb. lia.
Qed.

(** [s.split(sep)[0]] of a string that starts with a [sep]-free [b]
    followed by [sep]. *)
Lemma split_fields_app (sep : ascii) (b r : string) :
  remove_char sep b = b ->
  fst (split_fields sep (b +:+ String sep r)) = b.
Proof.
  induction b as [|c b IH]; rewrite ?append_nil, ?append_cons; simpl.
  - intros _. destruct (split_fields sep r). by rewrite Ascii.eqb_refl.
  - destruct (Ascii.eqb c sep) eqn:Hc.
    + intros Hb. exfalso.
      pose proof (remove_char_length sep b) as Hl. rewrite Hb in Hl. simpl in Hl. lia.
    + intros [= Hb]. specialize (IH Hb).
      destruct (split_fields sep (b +:+ String sep r)); simpl in *. by subst.
Qed.

Lemma split_fields_free (sep : ascii) (b : string) :
  remove_char sep b = b -> split_fields sep b = (b, []).
Proof.
  induction b as [|c b IH]; simpl; [done|].
  destruct (Ascii.eqb c sep) eqn:Hc.
  - intros Hb. exfalso.
    pose proof (remove_char_length sep b) as Hl. rewrite Hb in Hl. simpl in Hl. lia.
  - intros [= Hb]. by rewrite (IH Hb).
Qed.

End PyFacts.

(** ** The pieces of the script *)

Module SetupFacts.
Import Py Packaging SetupPy Spec PyFacts.

Local Open Scope script_scope.

(** *** The monad *)

Lemma bind_assoc {A B C} (m : Script A) (f : A -> Script B) (g : B -> Script C)
    (s : State) :
  bind (bind m f) g s = bind m (fun a => bind (f a) g) s.
Proof. unfold bind. by destruct (m s) as [s' [e|a]]. Qed.

Lemma bind_returns {A B} (m : Script A) (k : A -> Script B) (s s' : State) (a : A) :
  m s = (s', inr a) -> bind m k s = k a s'.
Proof. unfold bind. by intros ->. Qed.

Lemma bind_raises {A B} (m : Script A) (k : A -> Script B) (s s' : State) (e : Exn) :
  m s = (s', inl e) -> bind m k s = (s', inl e).
Proof. unfold bind. by intros ->. Qed.

(** *** Iterating over the set *)

Lemma elem_of_set_iter (w : World) (caps : gset string) (c : string) :
  c ∈ set_iter w caps <-> c ∈ caps.
Proof. by rewrite (set_iter_perm w caps), elem_of_elements. Qed.

(** *** [has_capability] *)

Lemma any_startswith_spec (w : World) (target : prefixes) (caps : gset string) :
  any_startswith target (set_iter w caps) = true <->
  exists cc, cc ∈ caps /\ startswith_any cc target = true.
Proof.
  unfold any_startswith. rewrite existsb_exists.
  split; intros (cc & Hin & Hcc); exists cc; split; try done.
  - apply (elem_of_set_iter w). by apply list_elem_of_In.
  - apply list_elem_of_In. by apply elem_of_set_iter.
Qed.

(** The answer does not depend on the order of iteration. *)
Lemma any_startswith_order (w w' : World) (target : prefixes) (caps : gset string) :
  any_startswith target (set_iter w caps) = any_startswith target (set_iter w' caps).
Proof.
  apply eq_true_iff_eq. by rewrite !any_startswith_spec.
Qed.

Lemma has_capability_run (w : World) (target : prefixes) (s : State) :
  has_capability w target s =
  (s, inr (any_startswith target (set_iter w (compute_capabilities s)))).
Proof. reflexivity. Qed.

Lemma register_if_run (w : World) (targets allowed : list string)
    (make : list string -> CUDAExtension) (s : State) :
  register_if w targets make allowed s =
  if any_startswith (Tuple targets) (set_iter w (compute_capabilities s))
  then append_ext_module
         (make (nvcc_flags_over w allowed (set_iter w (compute_capabilities s)))) s
  else (s, inr tt).
Proof.
  unfold register_if, bind. rewrite has_capability_run.
  by destruct (any_startswith _ _).
Qed.

(** *** [get_nvcc_flags] *)

Lemma nvcc_flags_step_app (allowed acc : list string) (c : string) :
  nvcc_flags_step allowed acc c = acc ++ capability_flags allowed c.
Proof.
  unfold nvcc_flags_step, capability_flags.
  destruct (bool_decide (c ∈ allowed)); simpl; [|by rewrite app_nil_r].
  destruct (endswith c "+PTX"); [by rewrite <- app_assoc | done].
Qed.

Lemma nvcc_flags_loop (allowed acc : list string) (ccs : list string) :
  fold_left (nvcc_flags_step allowed) ccs acc
  = acc ++ concat (capability_flags allowed <$> ccs).
Proof.
  revert acc. induction ccs as [|c ccs IH]; intros acc; simpl.
  - by rewrite app_nil_r.
  - by rewrite IH, nvcc_flags_step_app, <- app_assoc.
Qed.

Lemma nvcc_flags_over_concat (w : World) (allowed ccs : list string) :
  nvcc_flags_over w allowed ccs
  = concat (capability_flags allowed <$> ccs) ++ NVCC_FLAGS_COMMON w.
Proof. unfold nvcc_flags_over. by rewrite nvcc_flags_loop. Qed.

Lemma capability_flags_nonempty (allowed : list string) (c : string) :
  capability_flags allowed c <> [] <-> c ∈ allowed.
Proof.
  unfold capability_flags. destruct (bool_decide_reflect (c ∈ allowed)); simpl.
  - split; [done | intros _; discriminate].
  - split; [done | intros Hin; contradiction].
Qed.

(** The part of a capability before its first [+], dots removed. *)
Lemma arch_num_plus (b r : string) :
  remove_char "+" b = b ->
  arch_num (b +:+ String "+" r)
  = if bool_decide (remove_char "." b ∈ ["90"; "120"])
    then remove_char "." b +:+ "a" else remove_char "." b.
Proof.
  intros Hb. unfold arch_num, split_on.
  pose proof (split_fields_app "+" b r Hb) as Hf.
  destruct (split_fields "+" (b +:+ String "+" r)) as [t ts]; simpl in *.
  by subst.
Qed.

Lemma arch_num_plain (b : string) :
  remove_char "+" b = b ->
  arch_num b
  = if bool_decide (remove_char "." b ∈ ["90"; "120"])
    then remove_char "." b +:+ "a" else remove_char "." b.
Proof.
  intros Hb. unfold arch_num, split_on. by rewrite (split_fields_free _ _ Hb).
Qed.

(** The reading by suffix, the one of the comment on line 108, gives the
    same number whenever the only [+] of the capability starts a trailing
    [+PTX]. *)
Lemma drop_ptx_suffix (b : string) : drop_ptx (b +:+ "+PTX") = b.
Proof.
  unfold drop_ptx.
  assert (He : endswith (b +:+ "+PTX") "+PTX" = true)
    by (apply endswith_spec; by exists b).
  rewrite He, length_append. simpl String.length.
  replace (String.length b + 4 - 4) with (String.length b) by lia.
  apply substring_append.
Qed.

Lemma suffix_arch_num_agrees (b : string) :
  remove_char "+" b = b ->
  suffix_arch_num b = arch_num b
  /\ suffix_arch_num (b +:+ "+PTX") = arch_num (b +:+ "+PTX").
Proof.
  intros Hb. split.
  - rewrite (arch_num_plain b Hb). unfold suffix_arch_num, drop_ptx.
    by rewrite (plus_free_not_ptx b Hb).
  - rewrite (arch_num_plus b "PTX" Hb). unfold suffix_arch_num.
    by rewrite drop_ptx_suffix.
Qed.

(** *** The environment branch of the detection *)

Lemma for_each_add (l : list string) (s : State) :
  for_each l add_capability s =
  ({| compute_capabilities := list_to_set l ∪ compute_capabilities s;
      ext_modules := ext_modules s;
      trace := trace s |}, inr tt).
Proof.
  revert s. induction l as [|x l IH]; intros s; simpl.
  - unfold ret. destruct s; simpl. do 2 f_equal. by rewrite (left_id_L ∅ (∪)).
  - unfold bind, add_capability, modify. rewrite IH; simpl.
    do 2 f_equal.
    by rewrite (assoc_L (∪)), (comm_L (∪) (list_to_set l) {[x]}).
Qed.

(** *** The device branch of the detection *)

Lemma detected_names_cons (major minor : N) (devs : list (N * N)) :
  detected_names ((major, minor) :: devs)
  = if (major <? 8)%N then detected_names devs
    else capability_name major minor :: detected_names devs.
Proof.
  unfold detected_names, usable. rewrite filter_cons. simpl.
  by destruct (major <? 8)%N.
Qed.

Lemma detect_devices_run (w : World) (l : list (N * N)) (i : nat) (s : State) :
  drop i (device_capability w) = l ->
  for_each (seq i (length l)) (detect_device w) s =
  ({| compute_capabilities := list_to_set (detected_names l) ∪ compute_capabilities s;
      ext_modules := ext_modules s;
      trace := trace s ++ device_trace i l |}, inr tt).
Proof.
  revert i s. induction l as [|[major minor] l IH]; intros i s Hd.
  - simpl. unfold ret. destruct s; simpl.
    by rewrite (left_id_L ∅ (∪)), app_nil_r.
  - assert (Hi : device_capability w !! i = Some (major, minor)).
    { pose proof (lookup_drop (device_capability w) i 0) as H0.
      rewrite Hd, Nat.add_0_r in H0. by rewrite <- H0. }
    assert (Hl : drop (S i) (device_capability w) = l).
    { replace (S i) with (i + 1) by lia.
      by rewrite <- drop_drop, Hd. }
    cbn [length seq for_each]. unfold bind at 1.
    unfold detect_device, torch_cuda_get_device_capability, bind, emit, modify,
      lift_option. cbn [fst snd]. rewrite Hi. unfold ret.
    rewrite detected_names_cons. cbn [device_trace].
    destruct (major <? 8)%N.
    + unfold emit, modify. rewrite (IH _ _ Hl). cbn.
      by rewrite <- !app_assoc.
    + unfold add_capability, modify. rewrite (IH _ _ Hl). cbn.
      rewrite <- !app_assoc. do 2 f_equal.
      by rewrite (assoc_L (∪)), (comm_L (∪) (list_to_set _) {[_]}).
Qed.

Lemma detect_run (w : World) (s : State) :
  detect_compute_capabilities w s =
  ({| compute_capabilities := detected_capabilities w ∪ compute_capabilities s;
      ext_modules := ext_modules s;
      trace := trace s ++ detection_trace w |}, inr tt).
Proof.
  unfold detect_compute_capabilities, detected_capabilities, detection_trace.
  destruct (truthy (getenv w ARCH_LIST)).
  - by rewrite for_each_add, app_nil_r.
  - unfold torch_cuda_device_count, emit, modify, ret, bind. cbn [fst snd].
    rewrite (detect_devices_run w (device_capability w) 0); [|done].
    cbn. by rewrite <- app_assoc.
Qed.

Lemma detected_eq (w : World) :
  detected w =
  {| compute_capabilities := detected_capabilities w;
     ext_modules := [];
     trace := detection_trace w |}.
Proof.
  unfold detected. rewrite detect_run. cbn.
  by rewrite (right_id_L ∅ (∪)).
Qed.

(** *** The script after [CUDA_HOME] *)

Lemma get_nvcc_cuda_version_state (w : World) (cuda_home : string) (s : State) :
  fst (get_nvcc_cuda_version w cuda_home s) =
  {| compute_capabilities := compute_capabilities s;
     ext_modules := ext_modules s;
     trace := trace s ++ [CheckOutput [cuda_home +:+ "/bin/nvcc"; "-V"]] |}.
Proof.
  unfold get_nvcc_cuda_version, bind, emit, modify, lift_option, raise, ret.
  cbn [fst snd].
  destruct (check_output w _); [|done].
  destruct (index _ _); [|done]. cbn.
  destruct (_ !! _); [|done].
  by destruct (parse w _).
Qed.

Lemma get_nvcc_cuda_version_outcome (w : World) (cuda_home : string) (s s' : State) :
  snd (get_nvcc_cuda_version w cuda_home s) = snd (get_nvcc_cuda_version w cuda_home s').
Proof.
  unfold get_nvcc_cuda_version, bind, emit, modify, lift_option, raise, ret.
  cbn [fst snd].
  destruct (check_output w _); [|done].
  destruct (index _ _); [|done]. cbn.
  destruct (_ !! _); [|done].
  by destruct (parse w _).
Qed.

Lemma configure_unfold (w : World) (s : State) :
  configure w s =
  match CUDA_HOME w with
  | None => (s, inl (RuntimeError
      "Cannot find CUDA_HOME. CUDA must be available to build the package."))
  | Some cuda_home => checks w cuda_home (fst (detect_compute_capabilities w s))
  end.
Proof.
  unfold configure, checks, require_cuda_home, lift_option.
  destruct (CUDA_HOME w) as [d|]; [|done].
  unfold bind at 1 2. unfold ret at 1. by rewrite detect_run.
Qed.

Lemma require_capabilities_run (w : World) (s : State) :
  require_capabilities w s =
  if bool_decide (compute_capabilities s = ∅)
  then (s, inl (RuntimeError
    "No GPUs found. Please specify SAGEATTENTION_CUDA_ARCH_LIST or build on a machine with GPUs."))
  else (fst (emit (PrintDetected (set_iter w (compute_capabilities s))) s), inr tt).
Proof.
  unfold require_capabilities, bind, gets.
  by destruct (bool_decide (compute_capabilities s = ∅)).
Qed.

Lemma targeted_any_startswith (w : World) (s : State) (c : string) :
  targeted s c <->
  any_startswith (Str c) (set_iter w (compute_capabilities s)) = true.
Proof. by rewrite any_startswith_spec. Qed.

Lemma require_cuda_for_run (w : World) (v required : Version) (c msg : string)
    (s : State) :
  require_cuda_for w v required c msg s =
  (s, if lt v required && any_startswith (Str c) (set_iter w (compute_capabilities s))
      then inl (RuntimeError msg) else inr tt).
Proof.
  unfold require_cuda_for. destruct (lt v required); [|done].
  unfold bind. rewrite has_capability_run. by destruct (any_startswith _ _).
Qed.

Lemma validate_run (w : World) (v : Version) (s : State) :
  validate_nvcc_cuda_version w v s = (s, version_check w v s).
Proof.
  unfold validate_nvcc_cuda_version, version_check.
  destruct (lt v [12; 0]%N); [done|].
  rewrite (bind_returns _ _ s s tt) by done.
  destruct (lt v [12; 4]%N && _) eqn:H89.
  { apply bind_raises. by rewrite require_cuda_for_run, H89. }
  rewrite (bind_returns _ _ s s tt) by (by rewrite require_cuda_for_run, H89).
  destruct (lt v [12; 3]%N && _) eqn:H90.
  { apply bind_raises. by rewrite require_cuda_for_run, H90. }
  rewrite (bind_returns _ _ s s tt) by (by rewrite require_cuda_for_run, H90).
  rewrite require_cuda_for_run. by destruct (lt v [12; 8]%N && _).
Qed.

Lemma version_check_vars (w : World) (v : Version) (s s' : State) :
  compute_capabilities s = compute_capabilities s' ->
  version_check w v s = version_check w v s'.
Proof. unfold version_check. by intros ->. Qed.

Lemma validate_raises (w : World) (v : Version) (s : State) :
  lt v [12; 0]%N = true
  \/ (lt v [12; 4]%N = true /\ targeted s "8.9")
  \/ (lt v [12; 3]%N = true /\ targeted s "9.0")
  \/ (lt v [12; 8]%N = true /\ targeted s "12.0") ->
  exists msg, version_check w v s = inl (RuntimeError msg).
Proof.
  rewrite !(targeted_any_startswith w). unfold version_check.
  intros H.
  destruct (lt v [12; 0]%N); [by eexists|].
  destruct (lt v [12; 4]%N), (lt v [12; 3]%N), (lt v [12; 8]%N);
    repeat (destruct (any_startswith _ _));
    try (by eexists);
    exfalso; destruct H as [H|[[H1 H2]|[[H1 H2]|[H1 H2]]]]; discriminate.
Qed.

(** Outside the four conditions the checks pass. *)
Lemma validate_returns (w : World) (v : Version) (s : State) :
  lt v [12; 0]%N = false ->
  (lt v [12; 4]%N = true -> ~ targeted s "8.9") ->
  (lt v [12; 3]%N = true -> ~ targeted s "9.0") ->
  (lt v [12; 8]%N = true -> ~ targeted s "12.0") ->
  version_check w v s = inr tt.
Proof.
  rewrite !(targeted_any_startswith w). unfold version_check.
  intros -> H1 H2 H3.
  assert (Hoff : forall (b c : bool), (b = true -> c <> true) -> b && c = false).
  { intros [] []; naive_solver. }
  by rewrite (Hoff _ _ H1), (Hoff _ _ H2), (Hoff _ _ H3).
Qed.

Lemma checks_vars (w : World) (cuda_home : string) (s : State) :
  same_vars (fst (checks w cuda_home s)) s.
Proof.
  unfold checks. unfold bind at 1.
  pose proof (get_nvcc_cuda_version_state w cuda_home s) as Hs1.
  destruct (get_nvcc_cuda_version w cuda_home s) as [s1 [e|v]]; cbn [fst] in Hs1.
  - by subst.
  - unfold bind. rewrite require_capabilities_run.
    destruct (bool_decide (compute_capabilities s1 = ∅)); [by subst|].
    rewrite validate_run. by subst.
Qed.

(** What the checks answer, case by case. *)
Lemma checks_outcome (w : World) (cuda_home : string) (s : State) :
  snd (checks w cuda_home s) =
  match snd (get_nvcc_cuda_version w cuda_home s) with
  | inl e => inl e
  | inr v =>
      if bool_decide (compute_capabilities s = ∅)
      then inl (RuntimeError
        "No GPUs found. Please specify SAGEATTENTION_CUDA_ARCH_LIST or build on a machine with GPUs.")
      else version_check w v s
  end.
Proof.
  unfold checks. unfold bind at 1.
  pose proof (get_nvcc_cuda_version_state w cuda_home s) as Hs1.
  destruct (get_nvcc_cuda_version w cuda_home s) as [s1 [e|v]]; cbn [fst snd] in *.
  - done.
  - unfold bind. rewrite require_capabilities_run. subst s1. cbn [compute_capabilities].
    destruct (bool_decide (compute_capabilities s = ∅)); [done|].
    rewrite validate_run. cbn [snd]. by apply version_check_vars.
Qed.

Lemma configure_ext_modules (w : World) :
  ext_modules (fst (configure w initial)) = [].
Proof.
  rewrite configure_unfold. destruct (CUDA_HOME w) as [d|]; [|done].
  destruct (checks_vars w d (fst (detect_compute_capabilities w initial))) as [_ ->].
  by rewrite detect_run.
Qed.

Lemma configure_capabilities (w : World) (cuda_home : string) :
  CUDA_HOME w = Some cuda_home ->
  compute_capabilities (fst (configure w initial)) = compute_capabilities (detected w).
Proof.
  intros Hd. rewrite configure_unfold, Hd.
  by destruct (checks_vars w cuda_home (fst (detect_compute_capabilities w initial)))
    as [-> _].
Qed.

Lemma configure_outcome (w : World) :
  snd (configure w initial) =
  match nvcc_version_of w with
  | inl e => inl e
  | inr v =>
      if bool_decide (compute_capabilities (detected w) = ∅)
      then inl (RuntimeError
        "No GPUs found. Please specify SAGEATTENTION_CUDA_ARCH_LIST or build on a machine with GPUs.")
      else version_check w v (detected w)
  end.
Proof.
  rewrite configure_unfold. unfold nvcc_version_of.
  destruct (CUDA_HOME w) as [d|]; [|done].
  by rewrite checks_outcome.
Qed.

Lemma run_configure_raises (w : World) (e : Exn) :
  snd (configure w initial) = inl e ->
  run w = (fst (configure w initial), inl e).
Proof.
  unfold run, setup_py. unfold bind at 1.
  destruct (configure w initial) as [s [e'|[]]]; cbn; congruence.
Qed.

End SetupFacts.

(** ** The detection loop (lines 70-77) *)

Module DetectionFacts.
Import Py Packaging SetupPy Spec PyFacts SetupFacts.

(** *** Decimal numerals have no dot and determine the number *)

Lemma string_of_uint_dot_free (d : Decimal.uint) :
  remove_char "." (NilEmpty.string_of_uint d) = NilEmpty.string_of_uint d.
Proof. induction d; simpl; congruence. Qed.

Lemma str_of_N_dot_free (n : N) : remove_char "." (str_of_N n) = str_of_N n.
Proof.
  unfold str_of_N, NilZero.string_of_uint.
  destruct (N.to_uint n) as [|u|u|u|u|u|u|u|u|u|u]; [reflexivity|..];
    apply string_of_uint_dot_free.
Qed.

Lemma str_of_N_inj (n m : N) : str_of_N n = str_of_N m -> n = m.
Proof.
  intros Heq. apply Unsigned.to_uint_inj.
  assert (Hback : forall k,
    NilZero.uint_of_string (str_of_N k) = Some (N.to_uint k)).
  { intros k. apply NilZero.usu. destruct k; [discriminate|].
    apply DecimalPos.Unsigned.to_uint_nonnil. }
  pose proof (Hback n) as Hn. rewrite Heq, Hback in Hn. congruence.
Qed.

Lemma capability_name_major (major minor major' minor' : N) :
  capability_name major minor = capability_name major' minor' -> major = major'.
Proof.
  unfold capability_name. intros Heq. apply str_of_N_inj.
  rewrite <- (split_fields_app "." (str_of_N major) (str_of_N minor))
    by apply str_of_N_dot_free.
  rewrite <- (split_fields_app "." (str_of_N major') (str_of_N minor'))
    by apply str_of_N_dot_free.
  exact (f_equal (fun x => fst (split_fields "." x)) Heq).
Qed.

(** *** What is kept, and what is logged *)

Lemma elem_of_detected_names (devs : list (N * N)) (x : string) :
  x ∈ detected_names devs <->
  exists major minor, (major, minor) ∈ devs /\ (8 <= major)%N
                      /\ x = capability_name major minor.
Proof.
  unfold detected_names. rewrite list_elem_of_fmap. split.
  - intros ([major minor] & -> & [Hu Hin]%list_elem_of_filter).
    exists major, minor. split; [done|]. split; [|done].
    unfold usable in Hu. cbn in Hu. apply negb_true_iff, N.ltb_ge in Hu. done.
  - intros (major & minor & Hin & Hge & ->). exists (major, minor).
    split; [done|]. apply list_elem_of_filter. split; [|done].
    unfold usable. cbn. by apply negb_true_iff, N.ltb_ge.
Qed.

Lemma detected_names_filter (devs : list (N * N)) :
  detected_names (filter (fun cap => usable cap = true) devs) = detected_names devs.
Proof.
  unfold detected_names. f_equal.
  induction devs as [|cap devs IH]; [done|].
  rewrite filter_cons. destruct (decide (usable cap = true)) as [Hu|Hu].
  - rewrite filter_cons. destruct (decide (usable cap = true)); [|done].
    by rewrite IH.
  - done.
Qed.

Lemma device_trace_warns (devs : list (N * N)) (k i : nat) (major minor : N) :
  devs !! i = Some (major, minor) -> (major < 8)%N ->
  Warn (skip_warning (k + i) major minor) ∈ device_trace k devs.
Proof.
  revert k i. induction devs as [|[M m] devs IH]; intros k i Hi Hlow; [done|].
  cbn [device_trace]. destruct i as [|i].
  - injection Hi as -> ->. rewrite Nat.add_0_r.
    apply N.ltb_lt in Hlow. rewrite Hlow.
    apply elem_of_cons. right. apply elem_of_cons. by left.
  - apply elem_of_cons. right. apply elem_of_app. right.
    replace (k + S i) with (S k + i) by lia. by apply IH.
Qed.

End DetectionFacts.

(** ** The registration (lines 122-197) *)

Module RegistryFacts.
Import Py Packaging SetupPy Spec PyFacts SetupFacts.

Local Open Scope script_scope.

Lemma appended_nil (s : State) : appended s [] = s.
Proof. destruct s. unfold appended. cbn. by rewrite app_nil_r. Qed.

Lemma appended_appended (s : State) (a b : list CUDAExtension) :
  appended (appended s a) b = appended s (a ++ b).
Proof. unfold appended. cbn. by rewrite app_assoc. Qed.

(** A guarded registration appends its extension, or nothing. *)
Lemma register_if_appends (w : World) (targets allowed : list string)
    (make : list string -> CUDAExtension) (s : State) :
  exists added,
    register_if w targets make allowed s = (appended s added, inr tt)
    /\ (added = [] \/ exists flags, added = [make flags]).
Proof.
  rewrite register_if_run. destruct (any_startswith _ _).
  - eexists [_]. split; [reflexivity|]. right. by eexists.
  - exists []. split; [by rewrite appended_nil | by left].
Qed.

Lemma register_fused_run (w : World) (s : State) :
  register_fused w s =
  (appended s [fused_extension w
     (nvcc_flags_over w ["8.0"; "8.9"; "9.0"; "12.0"]
        (set_iter w (compute_capabilities s)))], inr tt).
Proof. reflexivity. Qed.

Lemma register_extensions_run (w : World) (s : State) :
  register_extensions w s =
  (fst (register_fused w (fst (register_sm90 w (fst (register_sm89 w
     (fst (register_sm80 w (fst (reset_ext_modules s))))))))), inr tt).
Proof.
  unfold register_extensions.
  rewrite (bind_returns _ _ s (fst (reset_ext_modules s)) tt) by done.
  set (s0 := fst (reset_ext_modules s)).
  destruct (register_if_appends w ["8.0"] ["8.0"] (qattn_sm80 w) s0)
    as (a1 & H1 & _).
  fold (register_sm80 w) in H1.
  rewrite (bind_returns _ _ _ _ _ H1), H1. cbn [fst].
  set (s1 := appended s0 a1).
  destruct (register_if_appends w ["8.9"; "12.0"] ["8.9"; "12.0"] (qattn_sm89 w) s1)
    as (a2 & H2 & _).
  fold (register_sm89 w) in H2.
  rewrite (bind_returns _ _ _ _ _ H2), H2. cbn [fst].
  set (s2 := appended s1 a2).
  destruct (register_if_appends w ["9.0"] ["9.0"] (qattn_sm90 w) s2)
    as (a3 & H3 & _).
  fold (register_sm90 w) in H3.
  rewrite (bind_returns _ _ _ _ _ H3), H3. cbn [fst].
  by rewrite register_fused_run.
Qed.

(** The four steps of the registration, from the reset list on. *)
Lemma registration_steps (w : World) (s : State) :
  let s0 := fst (reset_ext_modules s) in
  exists a1 a2 a3,
    (a1 = [] \/ exists f, a1 = [qattn_sm80 w f])
    /\ (a2 = [] \/ exists f, a2 = [qattn_sm89 w f])
    /\ (a3 = [] \/ exists f, a3 = [qattn_sm90 w f])
    /\ fst (register_sm80 w s0) = appended s0 a1
    /\ fst (register_sm89 w (appended s0 a1)) = appended s0 (a1 ++ a2)
    /\ fst (register_sm90 w (appended s0 (a1 ++ a2))) = appended s0 ((a1 ++ a2) ++ a3)
    /\ fst (register_fused w (appended s0 ((a1 ++ a2) ++ a3)))
       = appended s0 (((a1 ++ a2) ++ a3) ++
           [fused_extension w
              (nvcc_flags_over w ["8.0"; "8.9"; "9.0"; "12.0"]
                 (set_iter w (compute_capabilities s)))]).
Proof.
  intros s0.
  destruct (register_if_appends w ["8.0"] ["8.0"] (qattn_sm80 w) s0)
    as (a1 & H1 & Ha1).
  destruct (register_if_appends w ["8.9"; "12.0"] ["8.9"; "12.0"] (qattn_sm89 w)
              (appended s0 a1)) as (a2 & H2 & Ha2).
  destruct (register_if_appends w ["9.0"] ["9.0"] (qattn_sm90 w)
              (appended s0 (a1 ++ a2))) as (a3 & H3 & Ha3).
  exists a1, a2, a3. repeat (split; [done|]).
  unfold register_sm80, register_sm89, register_sm90.
  rewrite H1, H2, H3, register_fused_run. cbn [fst].
  by rewrite !appended_appended.
Qed.

Lemma call_setup_run (w : World) (s : State) :
  call_setup w s =
  (s, match read_file w "README.md" with
      | None => inl FileNotFoundError
      | Some readme =>
          inr {| setup_name := "sageattention";
                 setup_version :=
                   "2.2.0" +:+ default "" (getenv w "SAGEATTENTION_WHEEL_VERSION_SUFFIX");
                 setup_long_description := readme;
                 setup_ext_modules := ext_modules s |}
      end).
Proof.
  unfold call_setup, bind, lift_option. by destruct (read_file w "README.md").
Qed.

Lemma run_configure_returns (w : World) :
  snd (configure w initial) = inr tt ->
  run w = call_setup w (fst (register_extensions w (fst (configure w initial)))).
Proof.
  intros Hc. unfold run, setup_py. unfold bind at 1.
  destruct (configure w initial) as [s [e|[]]]; [discriminate|].
  cbn [fst]. unfold bind. by rewrite register_extensions_run.
Qed.

(** A run that reaches [setup] went through the registration. *)
Lemma run_reaches_setup (w : World) (args : SetupArgs) :
  snd (run w) = inr args ->
  snd (configure w initial) = inr tt
  /\ fst (run w) = fst (register_extensions w (fst (configure w initial)))
  /\ setup_ext_modules args = ext_modules (fst (run w)).
Proof.
  intros Hrun.
  destruct (snd (configure w initial)) as [e|[]] eqn:Hc.
  { rewrite (run_configure_raises w e Hc) in Hrun. discriminate. }
  split; [done|]. rewrite (run_configure_returns w Hc) in *.
  rewrite call_setup_run in *. cbn [fst snd] in *. split; [done|].
  destruct (read_file w "README.md"); [|discriminate].
  by injection Hrun as <-.
Qed.

(** From any state: the reset, then four steps that each keep the list and
    append at most one extension; what the list then holds, and what
    [call_setup] passes on. *)
Lemma registration_chain (w : World) (s : State) :
  let s0 := fst (reset_ext_modules s) in
  let s1 := fst (register_sm80 w s0) in
  let s2 := fst (register_sm89 w s1) in
  let s3 := fst (register_sm90 w s2) in
  let s4 := fst (register_fused w s3) in
  ext_modules s0 = []
  /\ (ext_modules s0 `prefix_of` ext_modules s1
      /\ length (ext_modules s1) <= S (length (ext_modules s0)))
  /\ (ext_modules s1 `prefix_of` ext_modules s2
      /\ length (ext_modules s2) <= S (length (ext_modules s1)))
  /\ (ext_modules s2 `prefix_of` ext_modules s3
      /\ length (ext_modules s3) <= S (length (ext_modules s2)))
  /\ (ext_modules s3 `prefix_of` ext_modules s4
      /\ length (ext_modules s4) = S (length (ext_modules s3)))
  /\ register_extensions w s = (s4, inr tt)
  /\ compute_capabilities s4 = compute_capabilities s
  /\ NoDup (names (ext_modules s4))
  /\ names (ext_modules s4)
     ⊆ ["sageattention._qattn_sm80"; "sageattention._qattn_sm89";
        "sageattention._qattn_sm90"; "sageattention._fused"]
  /\ fst (call_setup w s4) = s4
  /\ forall args, snd (call_setup w s4) = inr args ->
       setup_ext_modules args = ext_modules s4.
Proof.
  intros s0 s1 s2 s3 s4.
  assert (H4 : register_extensions w s = (s4, inr tt))
    by apply register_extensions_run.
  destruct (registration_steps w s)
    as (a1 & a2 & a3 & Ha1 & Ha2 & Ha3 & E1 & E2 & E3 & E4).
  fold s0 in E1, E2, E3, E4. fold s1 in E1. rewrite <- E1 in E2.
  fold s2 in E2. rewrite <- E2 in E3. fold s3 in E3. rewrite <- E3 in E4.
  fold s4 in E4.
  assert (L1 : length a1 <= 1) by (destruct Ha1 as [->|[f ->]]; cbn; lia).
  assert (L2 : length a2 <= 1) by (destruct Ha2 as [->|[f ->]]; cbn; lia).
  assert (L3 : length a3 <= 1) by (destruct Ha3 as [->|[f ->]]; cbn; lia).
  split; [done|].
  split. { rewrite E1. cbn. split; [by exists a1 | lia]. }
  split. { rewrite E2, E1. cbn. rewrite length_app. split; [by exists a2 | lia]. }
  split. { rewrite E3, E2. cbn. rewrite !length_app. split; [by exists a3 | lia]. }
  split. { rewrite E4, E3. cbn. rewrite !length_app. cbn.
           split; [by eexists | lia]. }
  split; [done|].
  split. { by rewrite E4. }
  assert (Hnames : names (ext_modules s4)
    = (names a1 ++ names a2 ++ names a3) ++ ["sageattention._fused"]).
  { rewrite E4. unfold names. cbn. by rewrite !fmap_app, <- !app_assoc. }
  split; [|split].
  - rewrite Hnames.
    destruct Ha1 as [->|[f1 ->]], Ha2 as [->|[f2 ->]], Ha3 as [->|[f3 ->]];
      cbn; by apply (bool_decide_unpack _).
  - rewrite Hnames.
    destruct Ha1 as [->|[f1 ->]], Ha2 as [->|[f2 ->]], Ha3 as [->|[f3 ->]];
      cbn; intros x Hx;
      repeat (apply elem_of_cons in Hx as [->|Hx]);
      try (by apply elem_of_nil in Hx);
      by apply (bool_decide_unpack _).
  - rewrite call_setup_run. cbn [fst snd]. split; [done|].
    intros args Hargs. destruct (read_file w "README.md"); [|discriminate].
    by injection Hargs as <-.
Qed.

End RegistryFacts.

(** ** A run, in closed form *)

Module RunFacts.
Import Py Packaging SetupPy Spec PyFacts SetupFacts DetectionFacts RegistryFacts.

Local Open Scope script_scope.

Lemma register_extensions_closed (w : World) (s : State) :
  register_extensions w s =
  ({| compute_capabilities := compute_capabilities s;
      ext_modules := registered w (compute_capabilities s);
      trace := trace s |}, inr tt).
Proof.
  unfold register_extensions, registered.
  rewrite (bind_returns _ _ s (fst (reset_ext_modules s)) tt) by done.
  unfold register_sm80, register_sm89, register_sm90.
  unfold bind. rewrite register_if_run. cbn [fst reset_ext_modules modify
    compute_capabilities].
  destruct (any_startswith (Tuple ["8.0"]) _);
    cbn [append_ext_module modify]; rewrite register_if_run;
    cbn [compute_capabilities];
    destruct (any_startswith (Tuple ["8.9"; "12.0"]) _);
    cbn [append_ext_module modify]; rewrite register_if_run;
    cbn [compute_capabilities];
    destruct (any_startswith (Tuple ["9.0"]) _);
    reflexivity.
Qed.

Lemma run_summary (w : World) :
  snd (run w)
  = match snd (configure w initial) with
    | inl e => inl e
    | inr _ =>
        match read_file w "README.md" with
        | None => inl FileNotFoundError
        | Some readme =>
            inr {| setup_name := "sageattention";
                   setup_version :=
                     "2.2.0" +:+ default "" (getenv w "SAGEATTENTION_WHEEL_VERSION_SUFFIX");
                   setup_long_description := readme;
                   setup_ext_modules := registered w (compute_capabilities (detected w)) |}
        end
    end
  /\ ext_modules (fst (run w))
     = match snd (configure w initial) with
       | inl _ => []
       | inr _ => registered w (compute_capabilities (detected w))
       end.
Proof.
  destruct (snd (configure w initial)) as [e|[]] eqn:Hc.
  - rewrite (run_configure_raises w e Hc). cbn [fst snd].
    split; [done | apply configure_ext_modules].
  - assert (Hhome : exists d, CUDA_HOME w = Some d).
    { rewrite configure_unfold in Hc.
      destruct (CUDA_HOME w); [by eexists | discriminate]. }
    destruct Hhome as [d Hd].
    rewrite (run_configure_returns w Hc), register_extensions_closed, call_setup_run.
    cbn [fst snd ext_modules]. by rewrite (configure_capabilities w d Hd).
Qed.

(** Other GPUs with the same detected names: the same run, up to the
    trace. *)
Lemma run_same_detection (w : World) (devs : list (N * N)) :
  compute_capabilities (detected (with_devices w devs))
  = compute_capabilities (detected w) ->
  snd (run (with_devices w devs)) = snd (run w)
  /\ ext_modules (fst (run (with_devices w devs))) = ext_modules (fst (run w)).
Proof.
  intros Hcaps.
  assert (Hnvcc : nvcc_version_of (with_devices w devs) = nvcc_version_of w).
  { unfold nvcc_version_of. cbn [CUDA_HOME with_devices].
    destruct (CUDA_HOME w) as [d|]; [|done].
    exact (get_nvcc_cuda_version_outcome w d _ _). }
  assert (Hconf : snd (configure (with_devices w devs) initial)
                  = snd (configure w initial)).
  { rewrite !configure_outcome, Hnvcc, Hcaps.
    destruct (nvcc_version_of w) as [e|v]; [done|].
    destruct (bool_decide (compute_capabilities (detected w) = ∅)); [done|].
    exact (version_check_vars w v _ _ Hcaps). }
  destruct (run_summary (with_devices w devs)) as [-> ->].
  destruct (run_summary w) as [-> ->].
  rewrite Hconf, Hcaps. done.
Qed.

End RunFacts.

(** ** The script on a few machines *)

Module Examples.
Import Py Packaging SetupPy Spec.

Example split_arch_list :
  split "  8.0 8.9+PTX	9.0 " = ["8.0"; "8.9+PTX"; "9.0"].
Proof. reflexivity. Qed.

Example split_unicode_space :
  split ("8.0" +:+ NBSP +:+ "8.9" +:+ EM_SPACE +:+ "9.0") = ["8.0"; "8.9"; "9.0"].
Proof. reflexivity. Qed.

Example split_on_plus : split_on "+" "8.0+PTX" = ["8.0"; "PTX"].
Proof. reflexivity. Qed.

Example split_on_nothing : split_on "," "" = [""].
Proof. reflexivity. Qed.

Example endswith_ptx :
  endswith "8.0+PTX" "+PTX" = true /\ endswith "PTX" "+PTX" = false.
Proof. split; reflexivity. Qed.

Example startswith_tuple :
  startswith_any "12.0" (Tuple ["8.9"; "12.0"]) = true
  /\ startswith_any "8.0" (Tuple ["8.9"; "12.0"]) = false.
Proof. split; reflexivity. Qed.

Example arch_numbers :
  arch_num <$> ["8.0"; "8.9+PTX"; "9.0"; "12.0+PTX"; "10.0"]
  = ["80"; "89"; "90a"; "120a"; "100"].
Proof. reflexivity. Qed.

Example version_order :
  lt [11; 8]%N [12; 0]%N = true
  /\ lt [12; 0]%N [12]%N = false
  /\ lt [12]%N [12; 0]%N = false
  /\ lt [12; 3]%N [12; 4]%N = true
  /\ lt [12; 10]%N [12; 8]%N = false.
Proof. repeat split; reflexivity. Qed.

Example parse_nvcc_release :
  nvcc_version_of (machine None [] (Some "12.4")) = inr [12; 4]%N.
Proof. vm_compute. reflexivity. Qed.

(** A no-break space separates capabilities like any other white space. *)
Example detect_unicode_space :
  compute_capabilities (detected (machine (Some ("8.0" +:+ NBSP +:+ "8.9")) [] None))
  = {["8.0"]} ∪ {["8.9"]}.
Proof. vm_compute. reflexivity. Qed.

(** Two usable GPUs and an old one. *)
Example run_two_gpus :
  let w := machine None [(8, 0); (7, 5); (8, 9)]%N (Some "12.4") in
  names (ext_modules (fst (run w)))
  = ["sageattention._qattn_sm80"; "sageattention._qattn_sm89"; "sageattention._fused"]
  /\ trace (fst (run w))
     = [DeviceCount; DeviceCapability 0; DeviceCapability 1;
        Warn "skipping GPU 1 with compute capability 7.5"; DeviceCapability 2;
        CheckOutput ["/usr/local/cuda/bin/nvcc"; "-V"];
        PrintDetected ["8.9"; "8.0"]].
Proof. split; vm_compute; reflexivity. Qed.

(** [has_capability] goes by prefix and [get_nvcc_flags] by membership:
    [8.0+PTX] selects the sm80 extension, and contributes no [-gencode]
    flag to it, [8.0+PTX] being no element of [["8.0"]]. *)
Example run_ptx :
  let w := machine (Some "8.0+PTX") [] (Some "12.4") in
  (fun e => (name e, nvcc e)) <$> ext_modules (fst (run w))
  = [("sageattention._qattn_sm80", NVCC_FLAGS_COMMON w);
     ("sageattention._fused", NVCC_FLAGS_COMMON w)].
Proof. vm_compute. reflexivity. Qed.

End Examples.

(** * The claims *)

Import Py Packaging SetupPy Spec PyFacts SetupFacts DetectionFacts RegistryFacts RunFacts.

(** ** C1: [has_capability] *)

(** C1, as amended.  [has_capability(target)] answers by prefix, not by
    equality: it is true exactly when some registered capability starts with
    the target (with one of the targets, for a tuple), so [8.0+PTX] answers
    for [8.0].  The answer is a function of the capability set and the target
    alone, whatever the world, the iteration order of the set or the rest of
    the state, and the call leaves the state as it was; when no registered
    capability starts with any of the targets, the guarded registration
    appends nothing. *)
Theorem has_capability_prefix_match (w : World) (target : prefixes) (s : State) :
  exists b : bool,
    (forall w' s', compute_capabilities s' = compute_capabilities s ->
       has_capability w' target s' = (s', inr b))
    /\ (b = true <->
        exists cc p, cc ∈ compute_capabilities s /\ p ∈ alternatives target
                     /\ exists r, cc = p +:+ r)
    /\ (forall targets make allowed, target = Tuple targets -> b = false ->
          register_if w targets make allowed s = (s, inr tt)).
Proof.
  exists (any_startswith target (set_iter w (compute_capabilities s))).
  split; [|split].
  - intros w' s' Hcaps. rewrite has_capability_run, Hcaps.
    by rewrite (any_startswith_order w' w).
  - rewrite any_startswith_spec. split.
    + intros (cc & Hin & (p & Hp & Hr)%startswith_any_spec). by exists cc, p.
    + intros (cc & p & Hin & Hp & Hr). exists cc. split; [done|].
      apply startswith_any_spec. by exists p.
  - intros targets make allowed -> Hb. by rewrite register_if_run, Hb.
Qed.

(** On a machine whose only GPU is an 8.0, nothing starts with [9.0]: the
    answer is false and the sm90 extension is not registered. *)
Lemma has_capability_prefix_match_witness :
  let w := machine None [(8, 0)%N] (Some "12.8") in
  has_capability w (Tuple ["9.0"]) (detected w) = (detected w, inr false)
  /\ register_sm90 w (detected w) = (detected w, inr tt).
Proof.
  intros w.
  destruct (has_capability_prefix_match w (Tuple ["9.0"]) (detected w))
    as (b & Hrun & Hspec & Hreg).
  assert (Hb : b = false).
  { specialize (Hrun w (detected w) eq_refl). vm_compute in Hrun. congruence. }
  split.
  - rewrite (Hrun w (detected w) eq_refl). by rewrite Hb.
  - by apply (Hreg ["9.0"] (qattn_sm90 w) ["9.0"]).
Defined.

(** C1, as stated, fails: with SAGEATTENTION_CUDA_ARCH_LIST=8.9+PTX the set
    holds [8.9+PTX] only, [has_capability("8.9")] is true although [8.9] is
    no element of the set, and the sm89 extension is selected. *)
Lemma has_capability_not_exact :
  let w := machine (Some "8.9+PTX") [] (Some "12.8") in
  compute_capabilities (detected w) = {["8.9+PTX"]}
  /\ ("8.9" ∉ compute_capabilities (detected w))
  /\ has_capability w (Str "8.9") (detected w) = (detected w, inr true)
  /\ has_capability w (Tuple ["8.9"; "12.0"]) (detected w) = (detected w, inr true)
  /\ names (ext_modules (fst (run w)))
     = ["sageattention._qattn_sm89"; "sageattention._fused"].
Proof.
  intros w.
  assert (Hcaps : compute_capabilities (detected w) = {["8.9+PTX"]})
    by (vm_compute; reflexivity).
  split; [done|]. split.
  - rewrite Hcaps. intros H%elem_of_singleton. discriminate.
  - repeat split; vm_compute; reflexivity.
Qed.

(** ** C8: the environment variable *)

(** C8.  When SAGEATTENTION_CUDA_ARCH_LIST is set to a non-empty string, the
    detection leaves exactly the set of its white-space separated tokens in
    [compute_capabilities] and does nothing else: no event at all is
    emitted, so torch is never asked for the devices and no warning is
    given; the outcome is the same whatever GPUs the machine has, and no
    token is filtered out, whatever its major version. *)
Theorem arch_list_overrides_detection (w : World) (v : string) :
  getenv w ARCH_LIST = Some v -> v <> EmptyString ->
  detect_compute_capabilities w initial
  = ({| compute_capabilities := list_to_set (split v);
        ext_modules := [];
        trace := [] |}, inr tt)
  /\ (forall x, x ∈ compute_capabilities (detected w) <-> x ∈ split v)
  /\ (forall x, x ∈ split v -> x <> EmptyString /\ has_space x = false)
  /\ (forall devs, detected (with_devices w devs) = detected w)
  /\ trace (detected w) = [].
Proof.
  intros Hv Hne.
  assert (Ht : truthy (getenv w ARCH_LIST) = true).
  { rewrite Hv. by destruct v. }
  assert (Hd : detect_compute_capabilities w initial
    = ({| compute_capabilities := list_to_set (split v);
          ext_modules := []; trace := [] |}, inr tt)).
  { rewrite detect_run. unfold detected_capabilities, detection_trace.
    rewrite Ht, Hv. cbn. by rewrite (right_id_L ∅ (∪)). }
  split; [done|]. unfold detected. rewrite Hd. cbn [fst]. split; [|split; [|split]].
  - intros x. cbn. by rewrite elem_of_list_to_set.
  - intros x. apply split_tokens.
  - intros devs. rewrite detect_run.
    unfold detected_capabilities, detection_trace. cbn [getenv with_devices].
    rewrite Ht, Hv. cbn. by rewrite (right_id_L ∅ (∪)).
  - done.
Qed.

(** With [7.5 8.0+PTX] in the variable, on a machine with a 9.0 GPU: 7.5 is
    a build target, 9.0 is not, and nothing was logged. *)
Lemma arch_list_overrides_detection_witness :
  let w := machine (Some "7.5 8.0+PTX") [(9, 0)%N] (Some "12.8") in
  "7.5" ∈ compute_capabilities (detected w)
  /\ ("9.0" ∉ compute_capabilities (detected w))
  /\ trace (detected w) = [].
Proof.
  intros w.
  destruct (arch_list_overrides_detection w "7.5 8.0+PTX") as (_ & Hin & _ & _ & Htr).
  - reflexivity.
  - discriminate.
  - split; [|split].
    + apply Hin. vm_compute. apply elem_of_cons. by left.
    + intros H%Hin. vm_compute in H.
      repeat (apply elem_of_cons in H as [H|H]; [discriminate|]).
      by apply elem_of_nil in H.
    + exact Htr.
Defined.

(** ** C9: [get_nvcc_flags] *)

(** C9, as amended.  [get_nvcc_flags(allowed)] returns, for the capabilities
    of [compute_capabilities] in iteration order, the flags of each, followed
    by the common flags, and leaves the state as it was.  A capability
    contributes flags if and only if it is in [allowed]: then
    [-gencode arch=compute_N,code=sm_N], and after it
    [-gencode arch=compute_N,code=compute_N] exactly when the capability ends
    with [+PTX].  N is the part of the capability before its first [+]
    (whatever follows that [+], [PTX] or not, is dropped) with every dot
    removed, and with [a] appended exactly when that gives [90] or [120]. *)
Theorem get_nvcc_flags_emits (w : World) (allowed : list string) (s : State) :
  get_nvcc_flags w allowed s
  = (s, inr (concat (capability_flags allowed <$> set_iter w (compute_capabilities s))
             ++ NVCC_FLAGS_COMMON w))
  /\ (forall c, c ∈ set_iter w (compute_capabilities s) <-> c ∈ compute_capabilities s)
  /\ (forall c, capability_flags allowed c <> [] <-> c ∈ allowed)
  /\ (forall c, c ∈ allowed ->
        capability_flags allowed c
        = ["-gencode"; "arch=compute_" +:+ arch_num c +:+ ",code=sm_" +:+ arch_num c]
          ++ (if endswith c "+PTX"
              then ["-gencode";
                    "arch=compute_" +:+ arch_num c +:+ ",code=compute_" +:+ arch_num c]
              else []))
  /\ (forall c, endswith c "+PTX" = true <-> exists b, c = b +:+ "+PTX")
  /\ (forall b r, remove_char "+" b = b ->
        let num := remove_char "." b in
        let N := if bool_decide (num ∈ ["90"; "120"]) then num +:+ "a" else num in
        arch_num b = N /\ arch_num (b +:+ "+" +:+ r) = N).
Proof.
  split; [|split; [|split; [|split; [|split]]]].
  - unfold get_nvcc_flags, bind, gets, ret. by rewrite nvcc_flags_over_concat.
  - intros c. apply elem_of_set_iter.
  - intros c. apply capability_flags_nonempty.
  - intros c Hc. unfold capability_flags. by rewrite (bool_decide_eq_true_2 _ Hc).
  - intros c. apply endswith_spec.
  - intros b r Hb. split; [by apply arch_num_plain | by apply (arch_num_plus b r)].
Qed.

(** A 9.0 GPU and [8.0+PTX] both allowed: sm_90a for the first, sm_80 and
    the PTX flag for the second. *)
Lemma get_nvcc_flags_emits_witness :
  capability_flags ["8.0+PTX"; "9.0"] "9.0"
  = ["-gencode"; "arch=compute_90a,code=sm_90a"]
  /\ capability_flags ["8.0+PTX"; "9.0"] "8.0+PTX"
     = ["-gencode"; "arch=compute_80,code=sm_80";
        "-gencode"; "arch=compute_80,code=compute_80"]
  /\ arch_num ("9.0" +:+ "+" +:+ "PTX") = "90a".
Proof.
  pose (w := machine (Some "8.0+PTX 9.0") [] (Some "12.8")).
  destruct (get_nvcc_flags_emits w ["8.0+PTX"; "9.0"] (detected w))
    as (_ & _ & _ & Hflags & _ & Hnum).
  split; [|split].
  - rewrite Hflags; [reflexivity|]. apply elem_of_cons. right.
    apply elem_of_cons. by left.
  - rewrite Hflags; [reflexivity|]. apply elem_of_cons. by left.
  - destruct (Hnum "9.0" "PTX" eq_refl) as [_ ->]. reflexivity.
Defined.

(** C9, as stated, fails: for the capability [9.0+x] (no [+PTX] suffix to
    drop) the code emits sm_90a, the flag of what precedes the [+], where the
    statement's N is [90+x]. *)
Lemma get_nvcc_flags_not_suffix_reading :
  let w := machine (Some "9.0+x") [] (Some "12.8") in
  compute_capabilities (detected w) = {["9.0+x"]}
  /\ snd (get_nvcc_flags w ["9.0+x"] (detected w))
     = inr (["-gencode"; "arch=compute_90a,code=sm_90a"] ++ NVCC_FLAGS_COMMON w)
  /\ concat (suffix_capability_flags ["9.0+x"] <$> set_iter w (compute_capabilities (detected w)))
     = ["-gencode"; "arch=compute_90+x,code=sm_90+x"]
  /\ snd (get_nvcc_flags w ["9.0+x"] (detected w))
     <> inr (concat (suffix_capability_flags ["9.0+x"]
                       <$> set_iter w (compute_capabilities (detected w)))
             ++ NVCC_FLAGS_COMMON w).
Proof.
  intros w. repeat split; try (vm_compute; reflexivity).
  vm_compute. discriminate.
Qed.

(** ** C2: the nvcc version is checked before anything is registered *)

(** C2.  Let the nvcc query of the run yield the version [v].  If [v] is
    below 12.0, or below 12.4 while 8.9 is targeted, or below 12.3 while 9.0
    is targeted, or below 12.8 while 12.0 is targeted, then the script ends
    with a RuntimeError and [ext_modules] is still empty. *)
Theorem nvcc_version_validated (w : World) (v : Version) :
  nvcc_version_of w = inr v ->
  lt v [12; 0]%N = true
  \/ (lt v [12; 4]%N = true /\ targeted (detected w) "8.9")
  \/ (lt v [12; 3]%N = true /\ targeted (detected w) "9.0")
  \/ (lt v [12; 8]%N = true /\ targeted (detected w) "12.0") ->
  exists msg, snd (run w) = inl (RuntimeError msg)
              /\ ext_modules (fst (run w)) = [].
Proof.
  intros Hv Hlow.
  assert (Hraise : exists msg, snd (configure w initial) = inl (RuntimeError msg)).
  { rewrite configure_outcome, Hv.
    destruct (bool_decide (compute_capabilities (detected w) = ∅)); [by eexists|].
    by apply validate_raises. }
  destruct Hraise as [msg Hmsg]. exists msg.
  rewrite (run_configure_raises w _ Hmsg). split; [done|].
  apply configure_ext_modules.
Qed.

(** An 8.9 GPU with CUDA 12.3. *)
Lemma nvcc_version_validated_witness :
  let w := machine None [(8, 9)%N] (Some "12.3") in
  exists msg, snd (run w) = inl (RuntimeError msg)
              /\ ext_modules (fst (run w)) = [].
Proof.
  intros w. apply (nvcc_version_validated w [12; 3]%N).
  - vm_compute. reflexivity.
  - right. left. split; [reflexivity|].
    exists "8.9". split; [|reflexivity].
    replace (compute_capabilities (detected w)) with ({["8.9"]} : gset string)
      by (vm_compute; reflexivity).
    by apply elem_of_singleton.
Defined.

(** ** C3: an empty capability set *)

(** C3, as amended.  When the detection leaves [compute_capabilities] empty,
    the script always ends with an exception and [ext_modules] is still
    empty.  The nvcc version is queried first (line 79): if that query
    raises, its exception is the one that leaves the script; if it returns,
    the script raises the RuntimeError [No GPUs found]. *)
Theorem no_capabilities_no_build (w : World) :
  compute_capabilities (detected w) = ∅ ->
  snd (run w)
  = match nvcc_version_of w with
    | inl e => inl e
    | inr _ => inl (RuntimeError
        "No GPUs found. Please specify SAGEATTENTION_CUDA_ARCH_LIST or build on a machine with GPUs.")
    end
  /\ ext_modules (fst (run w)) = [].
Proof.
  intros Hempty.
  assert (Hout : snd (configure w initial)
    = match nvcc_version_of w with
      | inl e => inl e
      | inr _ => inl (RuntimeError
          "No GPUs found. Please specify SAGEATTENTION_CUDA_ARCH_LIST or build on a machine with GPUs.")
      end).
  { rewrite configure_outcome.
    destruct (nvcc_version_of w) as [e|v]; [done|].
    by rewrite (bool_decide_eq_true_2 _ Hempty). }
  assert (Hexn : exists e, snd (configure w initial) = inl e).
  { rewrite Hout. destruct (nvcc_version_of w); by eexists. }
  destruct Hexn as [e He].
  rewrite (run_configure_raises w e He). cbn [fst snd].
  split; [|apply configure_ext_modules].
  rewrite He in Hout. destruct (nvcc_version_of w); congruence.
Qed.

(** A machine whose only GPU is a 7.5, with a working CUDA 12.8. *)
Lemma no_capabilities_no_build_witness :
  let w := machine None [(7, 5)%N] (Some "12.8") in
  snd (run w) = inl (RuntimeError
    "No GPUs found. Please specify SAGEATTENTION_CUDA_ARCH_LIST or build on a machine with GPUs.")
  /\ ext_modules (fst (run w)) = [].
Proof.
  intros w.
  destruct (no_capabilities_no_build w) as [Hout Hext].
  - vm_compute. reflexivity.
  - split; [|exact Hext]. rewrite Hout. vm_compute. reflexivity.
Defined.

(** C3, as stated, fails: on a machine without GPUs whose CUDA_HOME has no
    runnable nvcc, the set is empty and the exception that leaves the script
    is the one of the subprocess, not a RuntimeError. *)
Lemma no_capabilities_other_exception :
  let w := machine None [] None in
  compute_capabilities (detected w) = ∅
  /\ snd (run w) = inl SubprocessError
  /\ forall msg, snd (run w) <> inl (RuntimeError msg).
Proof.
  intros w.
  assert (Hrun : snd (run w) = inl SubprocessError) by (vm_compute; reflexivity).
  split; [vm_compute; reflexivity|]. split; [done|].
  intros msg. rewrite Hrun. discriminate.
Qed.

(** ** C5: the registry is filled once, by appends *)

(** C5.  In a run, [ext_modules] is filled once and by appends only.  While
    the checks of lines 49-99 run nothing is registered, and a failing check
    ends the run with the list still empty.  When the checks pass, the run
    is exactly the reset of line 122, the four registration steps in order
    and then the call of [setup] on the state they leave: each step keeps
    what is already in the list and appends at most one extension, the last
    exactly one; no step raises or touches [compute_capabilities]; in the
    list they leave every name occurs at most once and is one of the four
    extension names; and that very list, unchanged, is what [setup] receives
    as [ext_modules]. *)
Theorem ext_modules_append_only (w : World) :
  let c := fst (configure w initial) in
  let s0 := fst (reset_ext_modules c) in
  let s1 := fst (register_sm80 w s0) in
  let s2 := fst (register_sm89 w s1) in
  let s3 := fst (register_sm90 w s2) in
  let s4 := fst (register_fused w s3) in
  ext_modules c = []
  /\ (forall e, snd (configure w initial) = inl e -> run w = (c, inl e))
  /\ (snd (configure w initial) = inr tt ->
      run w = call_setup w s4
      /\ fst (run w) = s4
      /\ forall args, snd (run w) = inr args ->
           setup_ext_modules args = ext_modules s4)
  /\ ext_modules s0 = []
  /\ (ext_modules s0 `prefix_of` ext_modules s1
      /\ length (ext_modules s1) <= S (length (ext_modules s0)))
  /\ (ext_modules s1 `prefix_of` ext_modules s2
      /\ length (ext_modules s2) <= S (length (ext_modules s1)))
  /\ (ext_modules s2 `prefix_of` ext_modules s3
      /\ length (ext_modules s3) <= S (length (ext_modules s2)))
  /\ (ext_modules s3 `prefix_of` ext_modules s4
      /\ length (ext_modules s4) = S (length (ext_modules s3)))
  /\ register_extensions w c = (s4, inr tt)
  /\ compute_capabilities s4 = compute_capabilities c
  /\ NoDup (names (ext_modules s4))
  /\ names (ext_modules s4)
     ⊆ ["sageattention._qattn_sm80"; "sageattention._qattn_sm89";
        "sageattention._qattn_sm90"; "sageattention._fused"]
  /\ fst (call_setup w s4) = s4
  /\ forall args, snd (call_setup w s4) = inr args ->
       setup_ext_modules args = ext_modules s4.
Proof.
  intros c s0 s1 s2 s3 s4.
  pose proof (registration_chain w c) as Hchain. cbv zeta in Hchain.
  fold s0 s1 s2 s3 s4 in Hchain.
  destruct Hchain as (H0 & H1 & H2 & H3 & H4 & Hreg & Hcaps & Hnd & Hsub & Hst & Hargs).
  split; [apply configure_ext_modules|].
  split; [intros e He; by apply run_configure_raises|].
  split; [|done].
  intros Hc.
  assert (Hrun : run w = call_setup w s4).
  { rewrite (run_configure_returns w Hc). fold c. by rewrite Hreg. }
  split; [done|]. rewrite Hrun. split; [done|]. apply Hargs.
Qed.

(** GPUs 8.0, 8.6 and 9.0 with CUDA 12.8: the run registers sm80, sm90 and
    the fused extension, in that order, each once. *)
Lemma ext_modules_append_only_witness :
  let w := machine None [(8, 0); (8, 6); (9, 0)]%N (Some "12.8") in
  names (ext_modules (fst (run w)))
  = ["sageattention._qattn_sm80"; "sageattention._qattn_sm90"; "sageattention._fused"]
  /\ NoDup (names (ext_modules (fst (run w)))).
Proof.
  intros w.
  destruct (ext_modules_append_only w)
    as (_ & _ & Hrun & _ & _ & _ & _ & _ & _ & _ & Hnodup & _).
  destruct Hrun as (_ & Hfst & _); [vm_compute; reflexivity|].
  rewrite Hfst. split; [vm_compute; reflexivity | exact Hnodup].
Defined.

(** ** C10: the fused extension *)

(** C10.  Whenever the checks of lines 49-99 pass, the registration ends by
    appending the fused extension, built with the flags of
    [get_nvcc_flags(["8.0", "8.9", "9.0", "12.0"])]: it is the last element
    of [ext_modules], whether or not an architecture-specific extension
    precedes it, and it is in the list handed to [setup]. *)
Theorem fused_always_registered (w : World) :
  snd (configure w initial) = inr tt ->
  let s := fst (register_extensions w (fst (configure w initial))) in
  last (ext_modules s)
  = Some (fused_extension w
            (nvcc_flags_over w ["8.0"; "8.9"; "9.0"; "12.0"]
               (set_iter w (compute_capabilities (detected w)))))
  /\ "sageattention._fused" ∈ names (ext_modules s)
  /\ forall args, snd (run w) = inr args ->
       "sageattention._fused" ∈ names (setup_ext_modules args).
Proof.
  intros Hc s.
  assert (Hhome : exists d, CUDA_HOME w = Some d).
  { rewrite configure_unfold in Hc. destruct (CUDA_HOME w); [by eexists|discriminate]. }
  destruct Hhome as [d Hd].
  assert (Hlast : last (ext_modules s)
    = Some (fused_extension w
              (nvcc_flags_over w ["8.0"; "8.9"; "9.0"; "12.0"]
                 (set_iter w (compute_capabilities (detected w)))))).
  { unfold s. rewrite register_extensions_run. cbn [fst].
    destruct (registration_steps w (fst (configure w initial)))
      as (a1 & a2 & a3 & _ & _ & _ & -> & -> & -> & ->).
    cbn [appended ext_modules reset_ext_modules modify fst].
    by rewrite app_nil_l, last_snoc, (configure_capabilities w d Hd). }
  assert (Hin : "sageattention._fused" ∈ names (ext_modules s)).
  { apply last_Some in Hlast as [l ->]. unfold names.
    rewrite fmap_app. apply elem_of_app. right. cbn. apply elem_of_cons. by left. }
  split; [done|]. split; [done|].
  intros args (_ & Hs & ->)%run_reaches_setup. by rewrite Hs.
Qed.

(** With SAGEATTENTION_CUDA_ARCH_LIST=7.5 no architecture-specific
    extension is registered, and the fused one is. *)
Lemma fused_always_registered_witness :
  let w := machine (Some "7.5") [] (Some "12.8") in
  names (ext_modules (fst (run w))) = ["sageattention._fused"]
  /\ "sageattention._fused" ∈ names (ext_modules (fst (run w))).
Proof.
  intros w. split; [vm_compute; reflexivity|].
  destruct (fused_always_registered w) as (_ & _ & Hrun).
  - vm_compute. reflexivity.
  - destruct (snd (run w)) as [e|args] eqn:Hargs; [vm_compute in Hargs; discriminate|].
    specialize (Hrun args eq_refl).
    apply run_reaches_setup in Hargs as (_ & _ & Hexts). by rewrite <- Hexts.
Defined.

(** ** C4: GPUs below 8.0 are left out *)

(** C4.  Without the environment variable, a device whose major version is
    below 8 is skipped: its turn of the loop only logs the query and the
    warning and leaves [compute_capabilities] as it was, the warning is in
    the trace of the detection, and its capability is no element of the
    detected set.  Nothing that follows depends on such devices: on the same
    machine without them the detected set, the outcome of the script and the
    registered extensions, with all their flags, are the same. *)
Theorem low_capability_devices_skipped (w : World) :
  truthy (getenv w ARCH_LIST) = false ->
  (forall i major minor,
     device_capability w !! i = Some (major, minor) -> (major < 8)%N ->
     (forall s, detect_device w i s
        = ({| compute_capabilities := compute_capabilities s;
              ext_modules := ext_modules s;
              trace := trace s ++ [DeviceCapability i;
                                   Warn (skip_warning i major minor)] |}, inr tt))
     /\ Warn (skip_warning i major minor) ∈ trace (detected w)
     /\ capability_name major minor ∉ compute_capabilities (detected w))
  /\ (let w' := with_devices w (filter (fun cap => usable cap = true)
                                       (device_capability w)) in
      compute_capabilities (detected w') = compute_capabilities (detected w)
      /\ snd (run w') = snd (run w)
      /\ ext_modules (fst (run w')) = ext_modules (fst (run w))).
Proof.
  intros Hauto.
  assert (Hcaps : forall devs,
    compute_capabilities (detected (with_devices w devs))
    = list_to_set (detected_names devs)).
  { intros devs. rewrite detected_eq. unfold detected_capabilities.
    cbn [compute_capabilities getenv device_capability with_devices].
    by rewrite Hauto. }
  assert (Hcapsw : compute_capabilities (detected w)
                   = list_to_set (detected_names (device_capability w))).
  { rewrite detected_eq. unfold detected_capabilities. cbn [compute_capabilities].
    by rewrite Hauto. }
  split.
  - intros i major minor Hi Hlow. split; [|split].
    + intros s. unfold detect_device, torch_cuda_get_device_capability, emit,
        modify, lift_option, bind. cbn [fst snd]. rewrite Hi. unfold ret.
      apply N.ltb_lt in Hlow. rewrite Hlow. cbn. by rewrite <- app_assoc.
    + rewrite detected_eq. unfold detection_trace. cbn [trace]. rewrite Hauto.
      apply elem_of_cons. right.
      by apply (device_trace_warns (device_capability w) 0 i).
    + rewrite Hcapsw, elem_of_list_to_set, elem_of_detected_names.
      intros (major' & minor' & _ & Hge & Hname).
      apply capability_name_major in Hname. lia.
  - cbv zeta.
    assert (Hsame : compute_capabilities
        (detected (with_devices w (filter (fun cap => usable cap = true)
                                          (device_capability w))))
      = compute_capabilities (detected w)).
    { by rewrite Hcaps, Hcapsw, detected_names_filter. }
    split; [done|]. by apply run_same_detection.
Qed.

(** GPUs 8.6, 7.5 and 9.0 with CUDA 12.8: the 7.5 is warned about and left
    out, and the run is the one of the machine with the other two GPUs. *)
Lemma low_capability_devices_skipped_witness :
  let w := machine None [(8, 6); (7, 5); (9, 0)]%N (Some "12.8") in
  let w' := machine None [(8, 6); (9, 0)]%N (Some "12.8") in
  Warn "skipping GPU 1 with compute capability 7.5" ∈ trace (detected w)
  /\ ("7.5" ∉ compute_capabilities (detected w))
  /\ ext_modules (fst (run w')) = ext_modules (fst (run w)).
Proof.
  intros w w'.
  destruct (low_capability_devices_skipped w) as [Hlow (_ & _ & Hexts)].
  - reflexivity.
  - destruct (Hlow 1 7%N 5%N) as (_ & Hwarn & Hout).
    + reflexivity.
    + reflexivity.
    + split; [exact Hwarn|]. split; [exact Hout|]. exact Hexts.
Defined.


(** * Further properties of the script *)

(** ** Helper facts *)

Module CoverFacts.
Import Py Packaging SetupPy Spec Cover PyFacts SetupFacts DetectionFacts RegistryFacts RunFacts.

Local Open Scope script_scope.

(** *** [list.index] *)

Lemma index_None (x : string) (l : list string) :
  index x l = None <-> x ∉ l.
Proof.
  induction l as [|y l IH]; simpl.
  - split; [intros _ H; by apply elem_of_nil in H | done].
  - rewrite not_elem_of_cons. destruct (String.eqb_spec y x) as [->|Hne].
    + split; [discriminate | intros [H _]; done].
    + destruct (index x l); simpl.
      * split; [discriminate|]. intros [_ H]. by apply IH in H.
      * split; [|done]. intros _. split; [congruence | by apply IH].
Qed.

(** The first occurrence counts. *)
Lemma index_first (x : string) (pre rest : list string) :
  x ∉ pre -> index x (pre ++ x :: rest) = Some (length pre).
Proof.
  induction pre as [|y pre IH]; simpl.
  - intros _. by rewrite String.eqb_refl.
  - intros [Hne Hpre]%not_elem_of_cons.
    destruct (String.eqb_spec y x) as [->|_]; [done|].
    by rewrite (IH Hpre).
Qed.

(** *** The order on versions *)

Lemma tuple_lt_cotrans (a b c : list N) :
  tuple_lt a c = true -> tuple_lt a b = true \/ tuple_lt b c = true.
Proof.
  revert b c. induction a as [|x a IH]; intros b c H.
  - destruct c as [|y c]; [discriminate|]. destruct b as [|z b]; auto.
  - destruct c as [|y c]; [discriminate|]. destruct b as [|z b]; [by right|].
    simpl in *.
    destruct (N.ltb_spec x y), (N.ltb_spec y x), (N.ltb_spec x z),
      (N.ltb_spec z x), (N.ltb_spec z y), (N.ltb_spec y z);
      try lia; auto; try discriminate.
Qed.

Lemma lt_cotrans (a b c : Version) :
  lt a c = true -> lt a b = true \/ lt b c = true.
Proof. apply tuple_lt_cotrans. Qed.

(** Not older than a version that is not older than [r]. *)
Lemma lt_false_trans (v v' r : Version) :
  lt v' v = false -> lt v r = false -> lt v' r = false.
Proof.
  intros H1 H2. destruct (lt v' r) eqn:H; [|done].
  destruct (lt_cotrans v' v r H); congruence.
Qed.

(** *** The set is iterated without repetition *)

Lemma NoDup_set_iter (w : World) (caps : gset string) : NoDup (set_iter w caps).
Proof. rewrite (set_iter_perm w caps). apply NoDup_elements. Qed.

(** A function that is empty off [a], over a list without repetition. *)
Lemma concat_single {A} (f : string -> list A) (a : string) (l : list string) :
  NoDup l -> (forall c, c <> a -> f c = []) ->
  concat (f <$> l) = if bool_decide (a ∈ l) then f a else [].
Proof.
  intros Hnd Hf. induction Hnd as [|c l Hc Hnd IH]; [done|].
  cbn [fmap list_fmap concat]. rewrite IH.
  destruct (decide (c = a)) as [->|Hne].
  - rewrite (bool_decide_eq_false_2 _ Hc), app_nil_r.
    rewrite bool_decide_eq_true_2; [done|]. apply elem_of_cons. by left.
  - rewrite (Hf c Hne). cbn.
    destruct (bool_decide_reflect (a ∈ l)) as [Hin|Hout].
    + rewrite bool_decide_eq_true_2; [done|]. apply elem_of_cons. by right.
    + rewrite bool_decide_eq_false_2; [done|].
      intros [->|H]%elem_of_cons; done.
Qed.

(** *** The nvcc query, step by step *)

Lemma get_nvcc_cuda_version_tokens (w : World) (d out : string) (s : State) :
  check_output w (nvcc_argv d) = Some out ->
  get_nvcc_cuda_version w d s =
  (logged s (CheckOutput (nvcc_argv d)),
   match index "release" (split out) with
   | None => inl ValueError
   | Some i =>
       match split out !! (i + 1) with
       | None => inl IndexError
       | Some token =>
           match parse w (hd "" (split_on "," token)) with
           | None => inl InvalidVersion
           | Some v => inr v
           end
       end
   end).
Proof.
  intros Hout. unfold get_nvcc_cuda_version, nvcc_argv in *.
  unfold bind, emit, modify, lift_option, raise, ret. cbn [fst snd].
  rewrite Hout. fold (logged s (CheckOutput [d +:+ "/bin/nvcc"; "-V"])).
  destruct (index "release" (split out)) as [i|]; [|done].
  destruct (split out !! (i + 1)) as [token|]; [|done].
  by destruct (parse w _).
Qed.

Lemma hd_split_on (sep : ascii) (b : string) :
  remove_char sep b = b ->
  hd "" (split_on sep b) = b
  /\ forall r, hd "" (split_on sep (b +:+ String sep r)) = b.
Proof.
  intros Hb. unfold split_on. split.
  - by rewrite (split_fields_free sep b Hb).
  - intros r. pose proof (split_fields_app sep b r Hb) as Hf.
    by destruct (split_fields sep (b +:+ String sep r)).
Qed.

(** *** How many capabilities a list of names gives *)

Lemma size_list_to_set_le (l : list string) :
  size (list_to_set l : gset string) <= length l.
Proof.
  induction l as [|x l IH]; cbn [list_to_set length].
  - by rewrite size_empty.
  - rewrite size_union_alt, size_singleton.
    assert (size (list_to_set l ∖ {[x]} : gset string) <= size (list_to_set l : gset string)).
    { apply subseteq_size. apply subseteq_difference_l. done. }
    lia.
Qed.

Lemma detected_names_length (devs : list (N * N)) :
  length (detected_names devs) <= length devs.
Proof.
  unfold detected_names. rewrite length_fmap. apply length_filter.
Qed.

(** *** The events of the detection loop *)

Lemma device_trace_queries (devs : list (N * N)) (k : nat) :
  List.filter is_device_query (device_trace k devs)
  = DeviceCapability <$> seq k (length devs).
Proof.
  revert k. induction devs as [|[major minor] devs IH]; intros k; [done|].
  cbn [device_trace length seq fmap list_fmap List.filter is_device_query].
  rewrite List.filter_app, IH. by destruct (major <? 8)%N.
Qed.

Lemma device_trace_warnings (devs : list (N * N)) (k : nat) :
  length (List.filter is_warning (device_trace k devs))
  = length (List.filter (fun cap => negb (usable cap)) devs).
Proof.
  revert k. induction devs as [|[major minor] devs IH]; intros k; [done|].
  cbn [device_trace List.filter is_warning].
  rewrite List.filter_app, length_app, IH. unfold usable. cbn [fst].
  by destruct (major <? 8)%N.
Qed.

(** *** Blank strings *)


(** *** An empty set stops the script *)


(** *** The version checks, as requirements *)

Lemma version_check_requirements (w : World) (v : Version) (s : State) :
  version_check w v s = inr tt <-> version_requirements v s.
Proof.
  split.
  - intros Hok. unfold version_requirements.
    rewrite !(targeted_any_startswith w). unfold version_check in Hok.
    destruct (lt v [12; 0]%N); [discriminate|].
    destruct (lt v [12; 4]%N), (lt v [12; 3]%N), (lt v [12; 8]%N);
      repeat (destruct (any_startswith _ _));
      try discriminate; repeat split; intros; congruence.
  - intros (H0 & H1 & H2 & H3). by apply validate_returns.
Qed.

(** *** Flags of capabilities that are not allowed *)

Lemma capability_flags_unfold (allowed : list string) (c : string) :
  capability_flags allowed c
  = if bool_decide (c ∈ allowed)
    then sm_flags c ++ (if endswith c "+PTX" then ptx_flags c else [])
    else [].
Proof. reflexivity. Qed.

Lemma concat_all_nil {A B} (f : A -> list B) (l : list A) :
  (forall c, c ∈ l -> f c = []) -> concat (f <$> l) = [].
Proof.
  induction l as [|c l IH]; intros Hf; [done|].
  cbn [fmap list_fmap concat]. rewrite Hf by (apply elem_of_cons; by left).
  apply IH. intros c' Hc'. apply Hf, elem_of_cons. by right.
Qed.

Lemma nvcc_flags_none_allowed (w : World) (allowed : list string) (caps : gset string) :
  (forall c, c ∈ caps -> c ∉ allowed) ->
  nvcc_flags_over w allowed (set_iter w caps) = NVCC_FLAGS_COMMON w.
Proof.
  intros Hout. rewrite nvcc_flags_over_concat, concat_all_nil; [done|].
  intros c Hc%elem_of_set_iter. rewrite capability_flags_unfold.
  by rewrite (bool_decide_eq_false_2 _ (Hout c Hc)).
Qed.

Lemma any_startswith_tuple (w : World) (ps : list string) (s : State) :
  any_startswith (Tuple ps) (set_iter w (compute_capabilities s)) = true <->
  exists p, p ∈ ps /\ some_startswith s p.
Proof.
  rewrite any_startswith_spec. unfold some_startswith. split.
  - intros (c & Hc & (p & Hp & Hpre)%existsb_startswith). by exists p; eauto.
  - intros (p & Hp & c & Hc & Hpre). exists c. split; [done|].
    apply existsb_startswith. by exists p.
Qed.

Lemma extension_flags (w : World) (caps : gset string) (e : CUDAExtension) :
  e ∈ registered w caps ->
  cxx e = CXX_FLAGS w
  /\ exists allowed, nvcc e = nvcc_flags_over w allowed (set_iter w caps).
Proof.
  unfold registered. intros He.
  repeat (apply elem_of_app in He as [He|He]);
    try (destruct (any_startswith _ _); [|by apply elem_of_nil in He]);
    apply list_elem_of_singleton in He; subst e; (split; [done | by eexists]).
Qed.

(** *** The exceptions of the pieces *)

Lemma get_nvcc_cuda_version_exception (w : World) (d : string) (s : State) (e : Exn) :
  snd (get_nvcc_cuda_version w d s) = inl e ->
  e = SubprocessError \/ e = ValueError \/ e = IndexError \/ e = InvalidVersion.
Proof.
  unfold get_nvcc_cuda_version, bind, emit, modify, lift_option, raise, ret.
  cbn [fst snd].
  destruct (check_output w _); [|intros [= <-]; auto].
  destruct (index _ _); [|intros [= <-]; auto]. cbn.
  destruct (_ !! _); [|intros [= <-]; auto].
  destruct (parse w _); [discriminate | intros [= <-]; auto].
Qed.

Lemma version_check_exception (w : World) (v : Version) (s : State) (e : Exn) :
  version_check w v s = inl e -> expected_exception e.
Proof.
  unfold version_check.
  destruct (lt v [12; 0]%N);
    [intros [= <-]; by apply (bool_decide_unpack _)|].
  destruct (lt v [12; 4]%N && _);
    [intros [= <-]; by apply (bool_decide_unpack _)|].
  destruct (lt v [12; 3]%N && _);
    [intros [= <-]; by apply (bool_decide_unpack _)|].
  destruct (lt v [12; 8]%N && _);
    [intros [= <-]; by apply (bool_decide_unpack _)|].
  discriminate.
Qed.

Lemma configure_exception (w : World) (e : Exn) :
  snd (configure w initial) = inl e -> expected_exception e.
Proof.
  rewrite configure_outcome. unfold nvcc_version_of.
  destruct (CUDA_HOME w) as [d|].
  - destruct (snd (get_nvcc_cuda_version w d (detected w))) as [e'|v] eqn:Hq.
    + intros [= <-].
      by destruct (get_nvcc_cuda_version_exception w d _ e' Hq)
        as [->|[->|[->| ->]]].
    + destruct (bool_decide (compute_capabilities (detected w) = ∅)).
      * intros [= <-]. by apply (bool_decide_unpack _).
      * apply version_check_exception.
  - intros [= <-]. by apply (bool_decide_unpack _).
Qed.

(** *** Permuting the iteration *)

Lemma concat_fmap_Permutation {A B} (f : A -> list B) (l l' : list A) :
  l ≡ₚ l' -> concat (f <$> l) ≡ₚ concat (f <$> l').
Proof.
  induction 1 as [|x l l' _ IH|x y l|l l' l'' _ IH1 _ IH2]; cbn.
  - done.
  - by rewrite IH.
  - rewrite !app_assoc. by rewrite (Permutation_app_comm (f y) (f x)).
  - by rewrite IH1.
Qed.

Lemma nvcc_flags_set_order (w : World) (iter : gset string -> list string)
    (iter_perm : forall S : gset string, iter S ≡ₚ elements S)
    (allowed : list string) (caps : gset string) :
  nvcc_flags_over (with_set_iter w iter iter_perm) allowed (iter caps)
  ≡ₚ nvcc_flags_over w allowed (set_iter w caps).
Proof.
  rewrite !nvcc_flags_over_concat.
  change (NVCC_FLAGS_COMMON (with_set_iter w iter iter_perm))
    with (NVCC_FLAGS_COMMON w).
  apply Permutation_app; [|done]. apply concat_fmap_Permutation.
  by rewrite iter_perm, (set_iter_perm w caps).
Qed.

Lemma registered_set_order (w : World) (iter : gset string -> list string)
    (iter_perm : forall S : gset string, iter S ≡ₚ elements S)
    (caps : gset string) :
  Forall2 same_but_flag_order
    (registered (with_set_iter w iter iter_perm) caps) (registered w caps).
Proof.
  unfold registered. cbn [set_iter with_set_iter].
  assert (Hany : forall t, any_startswith t (iter caps)
                           = any_startswith t (set_iter w caps)).
  { intros t. exact (any_startswith_order (with_set_iter w iter iter_perm) w t caps). }
  rewrite !Hany.
  assert (Hext : forall (make : World -> list string -> CUDAExtension) allowed,
    (forall f' f, f' ≡ₚ f ->
       same_but_flag_order (make (with_set_iter w iter iter_perm) f') (make w f)) ->
    same_but_flag_order
      (make (with_set_iter w iter iter_perm)
         (nvcc_flags_over (with_set_iter w iter iter_perm) allowed (iter caps)))
      (make w (nvcc_flags_over w allowed (set_iter w caps)))).
  { intros make allowed Hmake. apply Hmake. apply nvcc_flags_set_order. }
  assert (H80 := Hext qattn_sm80 ["8.0"]
    (fun f' f Hf => conj eq_refl (conj eq_refl (conj eq_refl (conj eq_refl Hf))))).
  assert (H89 := Hext qattn_sm89 ["8.9"; "12.0"]
    (fun f' f Hf => conj eq_refl (conj eq_refl (conj eq_refl (conj eq_refl Hf))))).
  assert (H90 := Hext qattn_sm90 ["9.0"]
    (fun f' f Hf => conj eq_refl (conj eq_refl (conj eq_refl (conj eq_refl Hf))))).
  assert (Hfu := Hext fused_extension ["8.0"; "8.9"; "9.0"; "12.0"]
    (fun f' f Hf => conj eq_refl (conj eq_refl (conj eq_refl (conj eq_refl Hf))))).
  clear Hext.
  destruct (any_startswith (Tuple ["8.0"]) (set_iter w caps)),
           (any_startswith (Tuple ["8.9"; "12.0"]) (set_iter w caps)),
           (any_startswith (Tuple ["9.0"]) (set_iter w caps));
    cbn [app];
    repeat (apply List.Forall2_cons; [assumption|]); apply List.Forall2_nil.
Qed.

Lemma reverse_elements_perm (S : gset string) : reverse (elements S) ≡ₚ elements S.
Proof. apply reverse_Permutation. Qed.

(** *** The trace of the checks *)

Lemma checks_state (w : World) (d : string) (s : State) :
  trace (fst (checks w d s))
  = trace s ++ CheckOutput (nvcc_argv d)
      :: match snd (get_nvcc_cuda_version w d s) with
         | inl _ => []
         | inr _ =>
             if bool_decide (compute_capabilities s = ∅) then []
             else [PrintDetected (set_iter w (compute_capabilities s))]
         end.
Proof.
  unfold checks. unfold bind at 1.
  pose proof (get_nvcc_cuda_version_state w d s) as Hs1.
  destruct (get_nvcc_cuda_version w d s) as [s1 [e|v]]; cbn [fst snd] in *.
  - by subst.
  - unfold bind. rewrite require_capabilities_run. subst s1.
    cbn [compute_capabilities].
    destruct (bool_decide (compute_capabilities s = ∅)); [done|].
    rewrite validate_run. cbn. by rewrite <- app_assoc.
Qed.

Lemma configure_trace (w : World) (d : string) :
  CUDA_HOME w = Some d ->
  trace (fst (configure w initial)) = detection_trace w ++ checks_trace w d.
Proof.
  intros Hd. rewrite configure_unfold, Hd. fold (detected w).
  rewrite checks_state. unfold checks_trace, nvcc_version_of. rewrite Hd.
  by rewrite detected_eq.
Qed.

Lemma run_trace (w : World) (d : string) :
  CUDA_HOME w = Some d ->
  trace (fst (run w)) = detection_trace w ++ checks_trace w d.
Proof.
  intros Hd. rewrite <- (configure_trace w d Hd).
  destruct (snd (configure w initial)) as [e|[]] eqn:Hc.
  - by rewrite (run_configure_raises w e Hc).
  - rewrite (run_configure_returns w Hc).
    by rewrite call_setup_run, register_extensions_closed.
Qed.

Lemma same_event_but_order_refl (l : list Event) :
  Forall2 same_event_but_order l l.
Proof.
  induction l as [|e l IH]; [apply List.Forall2_nil|].
  apply List.Forall2_cons; [|done]. destruct e; cbn; reflexivity.
Qed.

(** *** Decimal numerals, again *)

Lemma string_of_uint_plus_free (d : Decimal.uint) :
  remove_char "+" (NilEmpty.string_of_uint d) = NilEmpty.string_of_uint d.
Proof. induction d; simpl; congruence. Qed.

Lemma str_of_N_plus_free (n : N) : remove_char "+" (str_of_N n) = str_of_N n.
Proof.
  unfold str_of_N, NilZero.string_of_uint.
  destruct (N.to_uint n) as [|u|u|u|u|u|u|u|u|u|u]; [reflexivity|..];
    apply string_of_uint_plus_free.
Qed.

Lemma str_of_N_nonempty (n : N) : str_of_N n <> EmptyString.
Proof.
  unfold str_of_N, NilZero.string_of_uint.
  by destruct (N.to_uint n).
Qed.

Lemma append_eq_nil (a b : string) :
  a +:+ b = EmptyString -> a = EmptyString /\ b = EmptyString.
Proof. destruct a; [by rewrite append_nil | by rewrite append_cons]. Qed.

Lemma append_eq_cons (a b : string) (c : ascii) (r : string) :
  a +:+ b = String c r ->
  (a = EmptyString /\ b = String c r)
  \/ (exists a', a = String c a' /\ a' +:+ b = r).
Proof.
  destruct a as [|c' a'].
  - rewrite append_nil. by left.
  - rewrite append_cons. intros [= -> <-]. right. by exists a'.
Qed.

End CoverFacts.

Import Cover CoverFacts.

(** ** The CUDA toolkit and the nvcc query (lines 49-63) *)

(** X1.  When torch found no CUDA toolkit, the script stops at once with the
    RuntimeError [Cannot find CUDA_HOME]: no environment variable is read
    into the capability set, no device is queried, nvcc is not run, and
    nothing is registered. *)
Theorem cuda_home_checked_first (w : World) :
  CUDA_HOME w = None ->
  run w = (initial, inl (RuntimeError
    "Cannot find CUDA_HOME. CUDA must be available to build the package.")).
Proof.
  intros Hnone.
  assert (Hc : configure w initial = (initial, inl (RuntimeError
    "Cannot find CUDA_HOME. CUDA must be available to build the package."))).
  { by rewrite configure_unfold, Hnone. }
  rewrite (run_configure_raises w _ (f_equal snd Hc)). by rewrite Hc.
Qed.

Lemma cuda_home_checked_first_witness :
  let w := without_cuda_home (machine (Some "8.0") [(9, 0)%N] (Some "12.8")) in
  run w = (initial, inl (RuntimeError
    "Cannot find CUDA_HOME. CUDA must be available to build the package.")).
Proof. intros w. apply (cuda_home_checked_first w). reflexivity. Defined.

(** X2.  [get_nvcc_cuda_version] reads the version off the token that
    follows the first token [release] of the output of [nvcc -V]: it parses
    what precedes the first comma of that token, ignores everything else in
    the output, and raises InvalidVersion when the parser rejects it.  The
    only trace it leaves is the one call of nvcc. *)
Theorem nvcc_version_after_first_release (w : World) (d out : string)
    (pre rest : list string) (b tail : string) (s : State) :
  check_output w (nvcc_argv d) = Some out ->
  split out = pre ++ "release" :: (b +:+ tail) :: rest ->
  "release" ∉ pre ->
  remove_char "," b = b ->
  tail = EmptyString \/ (exists r, tail = String "," r) ->
  get_nvcc_cuda_version w d s
  = (logged s (CheckOutput (nvcc_argv d)),
     match parse w b with
     | Some v => inr v
     | None => inl InvalidVersion
     end).
Proof.
  intros Hout Htok Hpre Hb Htail.
  rewrite (get_nvcc_cuda_version_tokens w d out s Hout), Htok.
  rewrite (index_first _ _ _ Hpre).
  assert (Hl : (pre ++ "release" :: (b +:+ tail) :: rest) !! (length pre + 1)
               = Some (b +:+ tail)).
  { rewrite lookup_app_r by lia.
    by replace (length pre + 1 - length pre) with 1 by lia. }
  rewrite Hl.
  destruct (hd_split_on "," b Hb) as [Hplain Hcomma].
  assert (Hhd : hd "" (split_on "," (b +:+ tail)) = b).
  { destruct Htail as [->|[r ->]]; [by rewrite append_nil_r | apply Hcomma]. }
  rewrite Hhd. by destruct (parse w b).
Qed.

Lemma nvcc_version_after_first_release_witness :
  let w := machine None [] (Some "12.4") in
  get_nvcc_cuda_version w "/usr/local/cuda" initial
  = (logged initial (CheckOutput (nvcc_argv "/usr/local/cuda")), inr [12; 4]%N).
Proof.
  intros w.
  rewrite (nvcc_version_after_first_release w "/usr/local/cuda"
             (nvcc_banner "12.4")
             ["nvcc:"; "NVIDIA"; "(R)"; "Cuda"; "compiler"; "driver"; "Cuda";
              "compilation"; "tools,"]
             ["V12.4.0"] "12.4" "," initial).
  - reflexivity.
  - reflexivity.
  - reflexivity.
  - intros H. repeat (apply elem_of_cons in H as [H|H]; [discriminate|]).
    by apply elem_of_nil in H.
  - reflexivity.
  - right. by exists EmptyString.
Defined.

(** X3.  The ways the nvcc query fails: SubprocessError when nvcc cannot be
    run, ValueError when its output has no token [release], IndexError when
    [release] is the last token.  In each case the call of nvcc is the only
    thing added to the state. *)
Theorem nvcc_version_failures (w : World) (d : string) (s : State) :
  fst (get_nvcc_cuda_version w d s) = logged s (CheckOutput (nvcc_argv d))
  /\ (check_output w (nvcc_argv d) = None ->
      snd (get_nvcc_cuda_version w d s) = inl SubprocessError)
  /\ (forall out, check_output w (nvcc_argv d) = Some out ->
        "release" ∉ split out ->
        snd (get_nvcc_cuda_version w d s) = inl ValueError)
  /\ (forall out pre, check_output w (nvcc_argv d) = Some out ->
        split out = pre ++ ["release"] -> "release" ∉ pre ->
        snd (get_nvcc_cuda_version w d s) = inl IndexError).
Proof.
  split; [apply get_nvcc_cuda_version_state|]. split; [|split].
  - intros Hnone. unfold get_nvcc_cuda_version, nvcc_argv in *.
    unfold bind, emit, modify, lift_option, raise. cbn [fst snd].
    by rewrite Hnone.
  - intros out Hout Hno.
    rewrite (get_nvcc_cuda_version_tokens w d out s Hout).
    by rewrite (proj2 (index_None _ _) Hno).
  - intros out pre Hout Htok Hpre.
    rewrite (get_nvcc_cuda_version_tokens w d out s Hout), Htok.
    rewrite (index_first _ _ _ Hpre).
    rewrite lookup_ge_None_2; [done|]. rewrite length_app. simpl. lia.
Qed.

Lemma nvcc_version_failures_witness :
  snd (get_nvcc_cuda_version (machine None [] None) "/usr/local/cuda" initial)
  = inl SubprocessError.
Proof.
  apply (nvcc_version_failures (machine None [] None) "/usr/local/cuda" initial).
  reflexivity.
Defined.

(** ** The detection (lines 65-77) *)

(** X4.  Without the environment variable, or with the empty string in it,
    [compute_capabilities] holds exactly the names [major.minor] of the
    devices whose major version is at least 8; devices of the same
    capability give one element, so the set is no larger than the number of
    devices. *)
Theorem detection_keeps_usable_devices (w : World) :
  getenv w ARCH_LIST = None \/ getenv w ARCH_LIST = Some EmptyString ->
  (forall c, c ∈ compute_capabilities (detected w) <->
     exists major minor, (major, minor) ∈ device_capability w
                         /\ (8 <= major)%N /\ c = capability_name major minor)
  /\ size (compute_capabilities (detected w)) <= length (device_capability w).
Proof.
  intros Henv.
  assert (Hauto : truthy (getenv w ARCH_LIST) = false)
    by (destruct Henv as [-> | ->]; reflexivity).
  assert (Hcaps : compute_capabilities (detected w)
                  = list_to_set (detected_names (device_capability w))).
  { rewrite detected_eq. unfold detected_capabilities. cbn [compute_capabilities].
    by rewrite Hauto. }
  rewrite Hcaps. split.
  - intros c. by rewrite elem_of_list_to_set, elem_of_detected_names.
  - pose proof (size_list_to_set_le (detected_names (device_capability w))).
    pose proof (detected_names_length (device_capability w)). lia.
Qed.

Lemma detection_keeps_usable_devices_witness :
  let w := machine (Some "") [(8, 6); (7, 5); (8, 6)]%N (Some "12.8") in
  "8.6" ∈ compute_capabilities (detected w)
  /\ size (compute_capabilities (detected w)) <= 3.
Proof.
  intros w.
  destruct (detection_keeps_usable_devices w) as [Hin Hsize].
  - right. reflexivity.
  - split; [|exact Hsize].
    apply Hin. exists 8%N, 6%N. split; [|split].
    + apply elem_of_cons. by left.
    + reflexivity.
    + reflexivity.
Defined.

(** X5.  Without the environment variable the detection asks torch for the
    number of devices once and then for the capability of every device
    exactly once, in order of their index; it never asks for an index that
    does not exist, so it cannot fail; and it warns once per device whose
    major version is below 8. *)
Theorem detection_queries_each_device_once (w : World) (s : State) :
  truthy (getenv w ARCH_LIST) = false ->
  snd (detect_compute_capabilities w s) = inr tt
  /\ List.filter is_device_query (trace (detected w))
     = DeviceCount :: (DeviceCapability <$> seq 0 (length (device_capability w)))
  /\ length (List.filter is_warning (trace (detected w)))
     = length (List.filter (fun cap => negb (usable cap)) (device_capability w)).
Proof.
  intros Hauto. split; [by rewrite detect_run|].
  rewrite detected_eq. unfold detection_trace. cbn [trace]. rewrite Hauto.
  cbn [List.filter is_device_query is_warning].
  by rewrite device_trace_queries, device_trace_warnings.
Qed.

Lemma detection_queries_each_device_once_witness :
  let w := machine None [(8, 6); (7, 5); (6, 1)]%N (Some "12.8") in
  List.filter is_device_query (trace (detected w))
  = [DeviceCount; DeviceCapability 0; DeviceCapability 1; DeviceCapability 2]
  /\ length (List.filter is_warning (trace (detected w))) = 2.
Proof.
  intros w.
  destruct (detection_queries_each_device_once w initial) as (_ & Hq & Hw).
  - reflexivity.
  - split; [exact Hq | exact Hw].
Defined.



(** ** [has_capability] (lines 85-86) *)

(** X7.  [has_capability] answers yes for every capability that is in the
    set; a yes stays a yes when capabilities are added to the set; and the
    answer for a tuple of targets is yes exactly when it is yes for one of
    them, so it is no for the empty tuple. *)
Theorem has_capability_members_and_tuples (w : World) (s s' : State)
    (target : prefixes) :
  (forall c, c ∈ compute_capabilities s ->
     snd (has_capability w (Str c) s) = inr true)
  /\ (compute_capabilities s ⊆ compute_capabilities s' ->
      snd (has_capability w target s) = inr true ->
      snd (has_capability w target s') = inr true)
  /\ (forall ps, snd (has_capability w (Tuple ps) s) = inr true <->
        exists p, p ∈ ps /\ snd (has_capability w (Str p) s) = inr true).
Proof.
  assert (Hrun : forall t st, snd (has_capability w t st) = inr true <->
            exists cc, cc ∈ compute_capabilities st /\ startswith_any cc t = true).
  { intros t st. rewrite has_capability_run. cbn [snd].
    rewrite <- any_startswith_spec. split; [by intros [= ->] | by intros ->]. }
  split; [|split].
  - intros c Hc. apply Hrun. exists c. split; [done|]. apply startswith_refl.
  - intros Hsub (cc & Hin & Hcc)%Hrun. apply Hrun. exists cc. split; [|done].
    by apply Hsub.
  - intros ps. rewrite Hrun. split.
    + intros (cc & Hin & (p & Hp & Hpre)%existsb_startswith).
      exists p. split; [done|]. apply Hrun. by exists cc.
    + intros (p & Hp & (cc & Hin & Hpre)%Hrun).
      exists cc. split; [done|]. apply existsb_startswith. by exists p.
Qed.

Lemma has_capability_members_and_tuples_witness :
  let w := machine None [(12, 0)%N] (Some "12.8") in
  snd (has_capability w (Str "12.0") (detected w)) = inr true
  /\ snd (has_capability w (Tuple ["8.9"; "12.0"]) (detected w)) = inr true.
Proof.
  intros w.
  destruct (has_capability_members_and_tuples w (detected w) (detected w)
              (Str "12.0")) as (Hmem & _ & Htuple).
  assert (Hstr : snd (has_capability w (Str "12.0") (detected w)) = inr true).
  { apply Hmem.
    replace (compute_capabilities (detected w)) with ({["12.0"]} : gset string)
      by (vm_compute; reflexivity).
    by apply elem_of_singleton. }
  split; [exact Hstr|].
  apply Htuple. exists "12.0". split; [|exact Hstr].
  apply elem_of_cons. right. apply elem_of_cons. by left.
Defined.

(** ** The version checks (lines 88-99) *)

(** X8.  The version checks never change the state and fail with a
    RuntimeError only.  They pass exactly when the nvcc version is at least
    12.0, at least 12.4 if 8.9 is targeted, at least 12.3 if 9.0 is
    targeted, and at least 12.8 if 12.0 is targeted. *)
Theorem version_checks_exact (w : World) (v : Version) (s : State) :
  fst (validate_nvcc_cuda_version w v s) = s
  /\ (snd (validate_nvcc_cuda_version w v s) = inr tt <-> version_requirements v s)
  /\ (forall e, snd (validate_nvcc_cuda_version w v s) = inl e ->
        exists msg, e = RuntimeError msg).
Proof.
  rewrite validate_run. cbn [fst snd]. split; [done|]. split.
  - apply version_check_requirements.
  - unfold version_check. intros e.
    destruct (lt v [12; 0]%N); [intros [= <-]; by eexists|].
    destruct (lt v [12; 4]%N && _); [intros [= <-]; by eexists|].
    destruct (lt v [12; 3]%N && _); [intros [= <-]; by eexists|].
    destruct (lt v [12; 8]%N && _); [intros [= <-]; by eexists|].
    discriminate.
Qed.

Lemma version_checks_exact_witness :
  let w := machine None [(8, 9)%N] (Some "12.4") in
  snd (validate_nvcc_cuda_version w [12; 4]%N (detected w)) = inr tt.
Proof.
  intros w.
  apply (version_checks_exact w [12; 4]%N (detected w)).
  unfold version_requirements. split; [reflexivity|]. split; [discriminate|].
  assert (Hcaps : compute_capabilities (detected w) = {["8.9"]})
    by (vm_compute; reflexivity).
  split; intros _ (cc & Hin & Hpre); rewrite Hcaps in Hin;
    apply elem_of_singleton in Hin; subst cc; discriminate.
Defined.

(** X9.  The version checks are monotone in the nvcc version: when they pass
    for a version, they pass for every version that is not below it. *)
Theorem newer_nvcc_passes (w : World) (v v' : Version) (s : State) :
  snd (validate_nvcc_cuda_version w v s) = inr tt ->
  lt v' v = false ->
  snd (validate_nvcc_cuda_version w v' s) = inr tt.
Proof.
  rewrite !validate_run. cbn [snd].
  rewrite !version_check_requirements. unfold version_requirements.
  intros (H0 & H1 & H2 & H3) Hv.
  assert (Hlow : forall r, lt v' r = true -> lt v r = true).
  { intros r Hr. destruct (lt_cotrans v' v r Hr); congruence. }
  split; [|auto].
  destruct (lt v' [12; 0]%N) eqn:H; [|done]. apply Hlow in H. congruence.
Qed.

Lemma newer_nvcc_passes_witness :
  let w := machine None [(9, 0)%N] (Some "12.3") in
  snd (validate_nvcc_cuda_version w [12; 6; 1]%N (detected w)) = inr tt.
Proof.
  intros w. apply (newer_nvcc_passes w [12; 3]%N).
  - vm_compute. reflexivity.
  - reflexivity.
Defined.

(** X10.  With CUDA 12.8 or newer and a capability set that is not empty,
    the script passes all its checks, whatever the capabilities are. *)
Theorem cuda_12_8_passes_checks (w : World) (v : Version) :
  nvcc_version_of w = inr v ->
  lt v [12; 8]%N = false ->
  compute_capabilities (detected w) <> ∅ ->
  snd (configure w initial) = inr tt.
Proof.
  intros Hv H128 Hcaps.
  rewrite configure_outcome, Hv, (bool_decide_eq_false_2 _ Hcaps).
  apply version_check_requirements.
  assert (Hlow : forall r, lt [12; 8]%N r = false -> lt v r = false).
  { intros r Hr. by apply (lt_false_trans [12; 8]%N). }
  unfold version_requirements.
  rewrite (Hlow [12; 0]%N), (Hlow [12; 4]%N), (Hlow [12; 3]%N), H128 by reflexivity.
  repeat split; discriminate.
Qed.

Lemma cuda_12_8_passes_checks_witness :
  snd (configure (machine None [(8, 9); (12, 0)]%N (Some "13.0")) initial) = inr tt.
Proof.
  apply (cuda_12_8_passes_checks _ [13; 0]%N).
  - vm_compute. reflexivity.
  - reflexivity.
  - intros H. apply (f_equal size) in H. vm_compute in H. discriminate.
Defined.

(** ** [get_nvcc_flags] (lines 102-120) *)

(** X11.  For a list with the single allowed capability [a], as in the sm80
    and sm90 extensions, [get_nvcc_flags] returns the flags of [a] once when
    [a] is in [compute_capabilities] and none otherwise, followed by the
    common flags: the set holds each capability once, and no other
    capability contributes. *)
Theorem get_nvcc_flags_single (w : World) (a : string) (s : State) :
  get_nvcc_flags w [a] s
  = (s, inr ((if bool_decide (a ∈ compute_capabilities s)
              then sm_flags a ++ (if endswith a "+PTX" then ptx_flags a else [])
              else [])
             ++ NVCC_FLAGS_COMMON w)).
Proof.
  unfold get_nvcc_flags, bind, gets, ret. rewrite nvcc_flags_over_concat.
  rewrite (concat_single (capability_flags [a]) a).
  - rewrite (bool_decide_ext _ _ (elem_of_set_iter w (compute_capabilities s) a)).
    rewrite capability_flags_unfold.
    rewrite (bool_decide_eq_true_2 (a ∈ [a])); [done|].
    apply elem_of_cons. by left.
  - apply NoDup_set_iter.
  - intros c Hne. rewrite capability_flags_unfold.
    rewrite bool_decide_eq_false_2; [done|].
    by intros Hc%list_elem_of_singleton.
Qed.

(** X12.  When no allowed capability ends with [+PTX], which is so for the
    four lists of the script, [get_nvcc_flags] emits no
    [code=compute_] flag: every capability in the allowed list contributes
    its two [sm_] flags and nothing else. *)
Theorem no_ptx_flag_without_ptx_allowed (w : World) (allowed : list string)
    (s : State) :
  (forall a, a ∈ allowed -> endswith a "+PTX" = false) ->
  get_nvcc_flags w allowed s
  = (s, inr (concat ((fun c => if bool_decide (c ∈ allowed) then sm_flags c else [])
                       <$> set_iter w (compute_capabilities s))
             ++ NVCC_FLAGS_COMMON w)).
Proof.
  intros Hplain. unfold get_nvcc_flags, bind, gets, ret.
  rewrite nvcc_flags_over_concat. do 4 f_equal.
  apply list_fmap_ext. intros i c _. rewrite capability_flags_unfold.
  destruct (bool_decide_reflect (c ∈ allowed)) as [Hin|]; [|done].
  by rewrite (Hplain c Hin), app_nil_r.
Qed.

Lemma no_ptx_flag_without_ptx_allowed_witness :
  let w := machine (Some "8.0 8.0+PTX") [] (Some "12.8") in
  snd (get_nvcc_flags w known_targets (detected w))
  = inr (["-gencode"; "arch=compute_80,code=sm_80"] ++ NVCC_FLAGS_COMMON w).
Proof.
  intros w. rewrite (no_ptx_flag_without_ptx_allowed w known_targets).
  - vm_compute. reflexivity.
  - intros a Ha.
    repeat (apply elem_of_cons in Ha as [->|Ha]; [reflexivity|]).
    by apply elem_of_nil in Ha.
Defined.

(** ** The registration (lines 122-182) *)

(** X13.  An extension can be selected and still get no architecture: when
    some capability starts with one of the targets of a guarded block but no
    capability is in the block's allowed list, as with [8.0+PTX] for the
    sm80 block, the extension is appended with the common nvcc flags only,
    without any [-gencode]. *)
Theorem selected_without_gencode (w : World) (targets allowed : list string)
    (make : list string -> CUDAExtension) (s : State) :
  (exists p, p ∈ targets /\ some_startswith s p) ->
  (forall c, c ∈ compute_capabilities s -> c ∉ allowed) ->
  register_if w targets make allowed s
  = (appended s [make (NVCC_FLAGS_COMMON w)], inr tt).
Proof.
  intros Hsel Hout. rewrite register_if_run.
  rewrite (proj2 (any_startswith_tuple w targets s) Hsel).
  by rewrite (nvcc_flags_none_allowed w allowed _ Hout).
Qed.

Lemma selected_without_gencode_witness :
  let w := machine (Some "8.0+PTX") [] (Some "12.8") in
  register_sm80 w (detected w)
  = (appended (detected w) [qattn_sm80 w (NVCC_FLAGS_COMMON w)], inr tt).
Proof.
  intros w.
  assert (Hcaps : compute_capabilities (detected w) = {["8.0+PTX"]})
    by (vm_compute; reflexivity).
  apply (selected_without_gencode w ["8.0"] ["8.0"] (qattn_sm80 w) (detected w)).
  - exists "8.0". split; [apply elem_of_cons; by left|].
    exists "8.0+PTX". split; [|reflexivity].
    rewrite Hcaps. by apply elem_of_singleton.
  - intros c Hc. rewrite Hcaps in Hc. apply elem_of_singleton in Hc. subst c.
    intros H. apply list_elem_of_singleton in H. discriminate.
Defined.

(** X14.  Which extensions are registered, and in which order: sm80 exactly
    when some capability starts with [8.0], sm89 exactly when one starts
    with [8.9] or with [12.0], sm90 exactly when one starts with [9.0]; the
    names always come in the order sm80, sm89, sm90, fused. *)
Theorem registered_names_in_order (w : World) (s : State) :
  let registered_names := names (ext_modules (fst (register_extensions w s))) in
  registered_names `sublist_of` extension_names
  /\ ("sageattention._qattn_sm80" ∈ registered_names <-> some_startswith s "8.0")
  /\ ("sageattention._qattn_sm89" ∈ registered_names <->
      some_startswith s "8.9" \/ some_startswith s "12.0")
  /\ ("sageattention._qattn_sm90" ∈ registered_names <-> some_startswith s "9.0").
Proof.
  cbv zeta. rewrite register_extensions_closed. cbn [fst ext_modules].
  unfold registered.
  assert (H80 := any_startswith_tuple w ["8.0"] s).
  assert (H89 := any_startswith_tuple w ["8.9"; "12.0"] s).
  assert (H90 := any_startswith_tuple w ["9.0"] s).
  assert (E80 : (exists p, p ∈ ["8.0"] /\ some_startswith s p)
                <-> some_startswith s "8.0").
  { split; [intros (p & Hp%list_elem_of_singleton & H); by subst|].
    intros H. exists "8.0". split; [apply elem_of_cons; by left | done]. }
  assert (E90 : (exists p, p ∈ ["9.0"] /\ some_startswith s p)
                <-> some_startswith s "9.0").
  { split; [intros (p & Hp%list_elem_of_singleton & H); by subst|].
    intros H. exists "9.0". split; [apply elem_of_cons; by left | done]. }
  assert (E89 : (exists p, p ∈ ["8.9"; "12.0"] /\ some_startswith s p)
                <-> some_startswith s "8.9" \/ some_startswith s "12.0").
  { split.
    - intros (p & [Hp|Hp%list_elem_of_singleton]%elem_of_cons & H); subst; auto.
    - intros [H|H]; [exists "8.9" | exists "12.0"]; (split; [|done]).
      + apply elem_of_cons. by left.
      + apply elem_of_cons. right. apply elem_of_cons. by left. }
  rewrite E80 in H80. rewrite E89 in H89. rewrite E90 in H90.
  rewrite <- H80, <- H89, <- H90.
  destruct (any_startswith (Tuple ["8.0"]) _),
           (any_startswith (Tuple ["8.9"; "12.0"]) _),
           (any_startswith (Tuple ["9.0"]) _);
    cbn; (split; [unfold extension_names;
                  repeat first [apply sublist_nil | apply sublist_skip
                               | apply sublist_cons] |]);
    repeat split; intros H; try done; try discriminate;
    try (by apply (bool_decide_unpack _));
    exfalso; revert H; by apply (bool_decide_unpack _).
Qed.

(** X15.  All registered extensions are compiled alike: each has the C++
    flags [CXX_FLAGS], its nvcc flags end with the common nvcc flags, and
    both flag lists end with the same [-D_GLIBCXX_USE_CXX11_ABI] define. *)
Theorem registered_share_flags (w : World) (s : State) (e : CUDAExtension) :
  e ∈ ext_modules (fst (register_extensions w s)) ->
  cxx e = CXX_FLAGS w
  /\ NVCC_FLAGS_COMMON w `suffix_of` nvcc e
  /\ last (cxx e) = Some ("-D_GLIBCXX_USE_CXX11_ABI=" +:+ str_of_N (ABI w))
  /\ last (nvcc e) = Some ("-D_GLIBCXX_USE_CXX11_ABI=" +:+ str_of_N (ABI w)).
Proof.
  rewrite register_extensions_closed. cbn [fst ext_modules].
  intros (Hcxx & allowed & Hnvcc)%extension_flags.
  rewrite Hcxx, Hnvcc. unfold nvcc_flags_over.
  split; [done|]. split; [by apply suffix_app_r|].
  unfold CXX_FLAGS, NVCC_FLAGS_COMMON. by rewrite !app_assoc, !last_snoc.
Qed.

Lemma registered_share_flags_witness :
  let w := machine None [(9, 0)%N] (Some "12.8") in
  last (nvcc (fused_extension w
          (nvcc_flags_over w known_targets
             (set_iter w (compute_capabilities (detected w))))))
  = Some "-D_GLIBCXX_USE_CXX11_ABI=1".
Proof.
  intros w.
  apply (registered_share_flags w (detected w)).
  rewrite register_extensions_closed. cbn [fst ext_modules]. unfold registered.
  apply elem_of_app. right. apply elem_of_app. right. apply elem_of_app. right.
  apply elem_of_cons. by left.
Defined.

(** X16.  A capability set in which nothing starts with [8.0], [8.9], [9.0]
    or [12.0], such as the one of a machine whose only GPU is an 8.6, still
    builds: the fused extension alone is registered, and it gets the common
    nvcc flags without a single [-gencode]. *)
Theorem unknown_capabilities_fused_only (w : World) (s : State) :
  (forall p, p ∈ known_targets -> ~ some_startswith s p) ->
  ext_modules (fst (register_extensions w s))
  = [fused_extension w (NVCC_FLAGS_COMMON w)].
Proof.
  intros Hnone. rewrite register_extensions_closed. cbn [fst ext_modules].
  unfold registered.
  assert (Hoff : forall ps, ps ⊆ known_targets ->
    any_startswith (Tuple ps) (set_iter w (compute_capabilities s)) = false).
  { intros ps Hps. apply not_true_is_false.
    intros (p & Hp & Hsome)%any_startswith_tuple.
    by apply (Hnone p (Hps p Hp)). }
  assert (Hsub : forall ps : list string,
            bool_decide (ps ⊆ known_targets) = true -> ps ⊆ known_targets).
  { intros ps H. by apply bool_decide_eq_true in H. }
  rewrite !Hoff by (by apply Hsub).
  rewrite nvcc_flags_none_allowed; [done|].
  intros c Hc Hin. apply (Hnone c Hin). exists c. split; [done|].
  apply startswith_refl.
Qed.

Lemma unknown_capabilities_fused_only_witness :
  let w := machine None [(8, 6)%N] (Some "12.8") in
  ext_modules (fst (register_extensions w (detected w)))
  = [fused_extension w (NVCC_FLAGS_COMMON w)].
Proof.
  intros w. apply (unknown_capabilities_fused_only w (detected w)).
  assert (Hcaps : compute_capabilities (detected w) = {["8.6"]})
    by (vm_compute; reflexivity).
  intros p Hp (c & Hc & Hpre). rewrite Hcaps in Hc.
  apply elem_of_singleton in Hc. subst c.
  repeat (apply elem_of_cons in Hp as [->|Hp]; [discriminate|]).
  by apply elem_of_nil in Hp.
Defined.

(** ** The call of [setup] (lines 184-197) and the whole run *)

(** X17.  When the checks pass, the extensions are registered before the
    README is read: without a readable README.md the run ends with
    FileNotFoundError and [setup] is not called, although [ext_modules] is
    filled; with one, [setup] receives the name [sageattention], the version
    [2.2.0] followed by SAGEATTENTION_WHEEL_VERSION_SUFFIX (nothing when it
    is unset), the README text and the registered extensions. *)
Theorem setup_receives_registered (w : World) :
  snd (configure w initial) = inr tt ->
  ext_modules (fst (run w)) = registered w (compute_capabilities (detected w))
  /\ ext_modules (fst (run w)) <> []
  /\ (read_file w "README.md" = None -> snd (run w) = inl FileNotFoundError)
  /\ (forall readme, read_file w "README.md" = Some readme ->
        snd (run w)
        = inr {| setup_name := "sageattention";
                 setup_version :=
                   "2.2.0" +:+ default "" (getenv w "SAGEATTENTION_WHEEL_VERSION_SUFFIX");
                 setup_long_description := readme;
                 setup_ext_modules := registered w (compute_capabilities (detected w)) |}).
Proof.
  intros Hc. destruct (run_summary w) as [Hout Hext].
  rewrite Hc in Hout, Hext. rewrite Hout, Hext.
  split; [done|]. split; [|split].
  - unfold registered. intros H. apply (f_equal length) in H.
    rewrite !length_app in H. cbn in H. lia.
  - by intros ->.
  - by intros readme ->.
Qed.

Lemma setup_receives_registered_witness :
  let w := machine None [(8, 0)%N] (Some "12.8") in
  exists args, snd (run w) = inr args
               /\ setup_version args = "2.2.0"
               /\ setup_ext_modules args = ext_modules (fst (run w)).
Proof.
  intros w.
  destruct (setup_receives_registered w) as (Hext & _ & _ & Hargs).
  - vm_compute. reflexivity.
  - eexists. split; [apply (Hargs "SageAttention"); reflexivity|].
    split; [reflexivity | by rewrite Hext].
Defined.

(** X18.  The exceptions a run can end with: never an AssertionError, torch
    being asked for existing devices only, and a RuntimeError only with one
    of the six messages of the script. *)
Theorem run_exceptions (w : World) (e : Exn) :
  snd (run w) = inl e -> expected_exception e.
Proof.
  destruct (run_summary w) as [-> _].
  destruct (snd (configure w initial)) as [e'|[]] eqn:Hc.
  - intros [= <-]. by apply (configure_exception w).
  - destruct (read_file w "README.md"); [discriminate|]. by intros [= <-].
Qed.

Lemma run_exceptions_witness :
  expected_exception (RuntimeError
    "CUDA 12.3 or higher is required for compute capability 9.0.").
Proof.
  apply (run_exceptions (machine None [(9, 0)%N] (Some "12.2"))).
  vm_compute. reflexivity.
Defined.

(** X19.  The order in which the process iterates over the capability set
    does not decide what is built: in a process with another order the run
    ends the same way and registers the same extensions, with the same
    names, sources, libraries and C++ flags; only the order of the nvcc flags
    within an extension may differ, and, in what the run logs, the order in
    which the detected capabilities are printed. *)
Theorem build_independent_of_set_order (w : World)
    (iter : gset string -> list string)
    (iter_perm : forall S : gset string, iter S ≡ₚ elements S) :
  let w' := with_set_iter w iter iter_perm in
  Forall2 same_but_flag_order (ext_modules (fst (run w'))) (ext_modules (fst (run w)))
  /\ (forall e, snd (run w') = inl e <-> snd (run w) = inl e)
  /\ Forall2 same_event_but_order (trace (fst (run w'))) (trace (fst (run w))).
Proof.
  intros w'.
  assert (Hdet : detected w' = detected w) by reflexivity.
  assert (Hnvcc : nvcc_version_of w' = nvcc_version_of w) by reflexivity.
  assert (Hcheck : forall v s, version_check w' v s = version_check w v s).
  { intros v s. unfold version_check. cbn [set_iter w' with_set_iter].
    by rewrite !(any_startswith_order w' w). }
  assert (Hconf : snd (configure w' initial) = snd (configure w initial)).
  { rewrite !configure_outcome, Hnvcc, Hdet.
    destruct (nvcc_version_of w) as [e|v]; [done|].
    destruct (bool_decide (compute_capabilities (detected w) = ∅)); [done|].
    apply Hcheck. }
  destruct (run_summary w') as [Hout' Hext'].
  destruct (run_summary w) as [Hout Hext].
  rewrite Hconf, Hdet in Hout', Hext'.
  split; [|split].
  - rewrite Hext', Hext.
    destruct (snd (configure w initial)); [apply List.Forall2_nil|].
    apply registered_set_order.
  - intros e. rewrite Hout', Hout.
    destruct (snd (configure w initial)) as [e0|[]]; [done|].
    change (read_file w' "README.md") with (read_file w "README.md").
    destruct (read_file w "README.md"); [|done].
    split; discriminate.
  - destruct (CUDA_HOME w) as [d|] eqn:Hd.
    + rewrite (run_trace w d Hd), (run_trace w' d Hd).
      change (detection_trace w') with (detection_trace w).
      apply Forall2_app; [apply same_event_but_order_refl|].
      unfold checks_trace. rewrite Hnvcc, Hdet.
      apply List.Forall2_cons; [done|].
      destruct (nvcc_version_of w); [apply List.Forall2_nil|].
      destruct (bool_decide (compute_capabilities (detected w) = ∅));
        [apply List.Forall2_nil|].
      apply List.Forall2_cons; [|apply List.Forall2_nil].
      cbn [same_event_but_order set_iter w' with_set_iter].
      by rewrite iter_perm, (set_iter_perm w).
    + assert (Hrun : forall u : World, CUDA_HOME u = None -> trace (fst (run u)) = []).
      { intros u Hu.
        assert (Hcu : configure u initial = (initial, inl (RuntimeError
          "Cannot find CUDA_HOME. CUDA must be available to build the package.")))
          by (by rewrite configure_unfold, Hu).
        rewrite (run_configure_raises u _ (f_equal snd Hcu)). by rewrite Hcu. }
      rewrite (Hrun w Hd), (Hrun w' Hd). apply List.Forall2_nil.
Qed.

(** With the reverse of the order of [machine]: the same two extensions. *)
Lemma build_independent_of_set_order_witness :
  let w := machine None [(8, 0); (9, 0)]%N (Some "12.8") in
  let w' := with_set_iter w (fun S => reverse (elements S)) reverse_elements_perm in
  names (ext_modules (fst (run w'))) = names (ext_modules (fst (run w))).
Proof.
  intros w w'.
  destruct (build_independent_of_set_order w (fun S => reverse (elements S))
              reverse_elements_perm) as (Hexts & _ & _).
  cbv zeta in Hexts. fold w' in Hexts. unfold names.
  induction Hexts as [|e' e l' l (Hname & _) _ IH]; [done|].
  cbn. by rewrite Hname, IH.
Defined.

(** X20.  The effects of a run, in order, when a CUDA toolkit is known: the
    events of the detection; then one call of [CUDA_HOME/bin/nvcc -V],
    whatever the capability set, even an empty one; then, when that call gave
    a version and the set is not empty, the print of the detected
    capabilities.  The version checks, the registration and [setup] add
    nothing. *)
Theorem run_effects_in_order (w : World) (d : string) :
  CUDA_HOME w = Some d ->
  trace (fst (run w)) = detection_trace w ++ checks_trace w d.
Proof. intros Hd. by apply run_trace. Qed.

Lemma run_effects_in_order_witness :
  let w := machine (Some "9.0") [(8, 0)%N] (Some "12.8") in
  trace (fst (run w))
  = [CheckOutput ["/usr/local/cuda/bin/nvcc"; "-V"];
     PrintDetected ["9.0"]].
Proof.
  intros w. rewrite (run_effects_in_order w "/usr/local/cuda"); reflexivity.
Defined.

(** X21.  For a detected device [major.minor] the architecture number of the
    flags is the digits of [major] followed by those of [minor]; the [a] is
    appended exactly when these digits are [90] or [120], that is for the
    devices 9.0 and 12.0 (and for a device 1.20, which the detection would
    skip). *)
Theorem detected_arch_num (major minor : N) :
  arch_num (capability_name major minor)
  = (if bool_decide (capability_digits major minor ∈ ["90"; "120"])
     then capability_digits major minor +:+ "a"
     else capability_digits major minor)
  /\ (capability_digits major minor ∈ ["90"; "120"] <->
      (major, minor) = (9, 0)%N \/ (major, minor) = (12, 0)%N
      \/ (major, minor) = (1, 20)%N).
Proof.
  split.
  - assert (Hplus : remove_char "+" (capability_name major minor)
                    = capability_name major minor).
    { unfold capability_name.
      by rewrite !remove_char_append, !str_of_N_plus_free. }
    rewrite (arch_num_plain _ Hplus).
    assert (Hdots : remove_char "." (capability_name major minor)
                    = capability_digits major minor).
    { unfold capability_name, capability_digits.
      by rewrite !remove_char_append, !str_of_N_dot_free. }
    by rewrite Hdots.
  - unfold capability_digits.
    pose proof (str_of_N_nonempty minor) as Hm.
    split.
    + intros [H|[H|H]%elem_of_cons]%elem_of_cons; [| |by apply elem_of_nil in H].
      * left.
        apply append_eq_cons in H as [[H _]|(a & Ha & H)];
          [by apply str_of_N_nonempty in H|].
        apply append_eq_cons in H as [[-> H]|(a' & -> & H)].
        -- f_equal; apply str_of_N_inj; [by rewrite Ha | by rewrite H].
        -- apply append_eq_nil in H as [_ H]. by apply Hm in H.
      * apply append_eq_cons in H as [[H _]|(a & Ha & H)];
          [by apply str_of_N_nonempty in H|].
        apply append_eq_cons in H as [[-> H]|(a' & -> & H)].
        { right. right. f_equal; apply str_of_N_inj; [by rewrite Ha | by rewrite H]. }
        apply append_eq_cons in H as [[-> H]|(a'' & -> & H)].
        { right. left. f_equal; apply str_of_N_inj; [by rewrite Ha | by rewrite H]. }
        apply append_eq_nil in H as [_ H]. by apply Hm in H.
    + intros [[= -> ->]|[[= -> ->]|[= -> ->]]]; by apply (bool_decide_unpack _).
Qed.
